(** * Firmware of the 5-axis robotic arm: trajectory profiles, scheduler gate
      and command interpreter of [5A-RA_firmware.ino], embedded in Rocq.

    Conventions of the embedding.

    - Integer types.  The planner squares [TF * ACC / 1000.0] and stores
      the result, 230400, in an [int]; the embedding therefore takes the
      32-bit targets of the Arduino family: [int] and [long] are 32-bit
      two's complement, [uint32_t] is 32-bit unsigned, [uint8_t] and [byte]
      are 8-bit unsigned.  Every value is a [Z]; the wrap-around of each
      type is written out ([to_int], [to_u32], [to_u8], [to_i16]).

    - [double].  The floating-point values the planner and the sampler
      compute are only observed through a truncation to an integer; the
      embedding computes them exactly in [Q] and truncates toward zero
      ([trunc]).  Inside 0..255 they are rationals with a short expansion
      whose distance to the next integer is far above the rounding of a
      53-bit mantissa; a value outside 0..255 reaches [oor_to_u8] as the
      integer part of the exact rational.  The two square roots are taken
      through integer square roots ([trunc_sqrt], [half_diff_sqrt]).

    - Behaviour C++ leaves undefined.  Three operations of the firmware
      can leave the defined fragment: an [int] division by zero (the sign
      of a zero-length move), the conversion of a NaN to [int] (the peak
      speed of an infeasible move) and the conversion to [uint8_t] of a
      [double] outside 0..255.  None of them traps on the targets; what
      they leave behind is a field of the [platform] record, so that a
      theorem quantified over [platform] holds whatever the target does.

    - The trigonometry of the inverse-kinematics solver (libm's [sin],
      [cos], [acos], [asin], [atan]) is not computed: the values of the
      five [round(...)] expressions are the [kinematics] field of
      [platform]. *)

From Stdlib Require Import ZArith QArith Qround Lia List Bool Ascii String.
From Stdlib Require Import DecimalString.
Import ListNotations.

Local Open Scope Z_scope.

(** ** Machine arithmetic *)

Definition to_u8 (n : Z) : Z := n mod 256.
Definition to_u32 (n : Z) : Z := n mod 2 ^ 32.
Definition to_int (n : Z) : Z := (n + 2 ^ 31) mod 2 ^ 32 - 2 ^ 31.
Definition to_i16 (n : Z) : Z := (n + 2 ^ 15) mod 2 ^ 16 - 2 ^ 15.

(** [long] has the width of [int] on the targets. *)
Definition to_long (n : Z) : Z := to_int n.

Definition int_mul (a b : Z) : Z := to_int (a * b).
Definition u32_mul (a b : Z) : Z := to_u32 (a * b).

(** Unsigned division; the firmware only divides by [t2 - t1] inside the
    branch [t1 < t <= t2]. *)
Definition u32_div (a b : Z) : Z := a / b.

(** The integer values of the five [round(...)] expressions of the solver,
    before they are stored in a [byte]. *)
Record joint_angles_t := {
  ANGLE_M1 : Z;
  ANGLE_M2 : Z;
  ANGLE_M3 : Z;
  ANGLE_M4 : Z;
  ANGLE_M5 : Z
}.

Record cartesian_position_t := {
  x : Z;      (* mm, int16_t *)
  y : Z;      (* mm, int16_t *)
  z : Z;      (* mm, int16_t *)
  yaw : Z;    (* deg, int16_t *)
  pitch : Z   (* deg, int16_t *)
}.

Record platform := {
  (** quotient left by [a / 0] on [int] operands *)
  sdiv_zero : Z -> Z;
  (** [(int) NaN] *)
  nan_to_int : Z;
  (** [(uint8_t) d] for a double [d] whose integer part lies outside 0..255 *)
  oor_to_u8 : Z -> Z;
  (** lines 335-338 of the solver: the wrist-pivot point written back
      into [*pos] *)
  wrist_pivot : cartesian_position_t -> cartesian_position_t;
  (** lines 340-355 of the solver: the five rounded joint angles *)
  kinematics : cartesian_position_t -> joint_angles_t
}.

(** [a / b] on [int] operands: truncation toward zero. *)
Definition int_div (p : platform) (a b : Z) : Z :=
  if b =? 0 then sdiv_zero p a else to_int (Z.quot a b).

(** ** Floating point *)

(** Integer part of a double, toward zero. *)
Definition trunc (q : Q) : Z :=
  if Qle_bool 0 q then Qfloor q else Qceiling q.

(** [pow(q, 2)] *)
Definition pow2 (q : Q) : Q := (q * q)%Q.

(** Integer part of [sqrt(q)], for [0 <= q]. *)
Definition trunc_sqrt (q : Q) : Z := Z.sqrt (Qfloor q).

(** Integer part of [0.5 * (a - pow(d, 0.5))], for [0 <= d] and
    [sqrt d <= a].  With [a = n/m], an integer [k] is below the value
    exactly when [sqrt (m*m*d) <= n - 2*m*k], that is when the least
    integer above that root is. *)
Definition half_diff_sqrt (a : Q) (d : Z) : Z :=
  let m := Zpos (Qden a) in
  (Qnum a - Z.sqrt_up (m * m * d)) / (2 * m).

Definition u8_of_integer_part (p : platform) (n : Z) : Z :=
  if (0 <=? n) && (n <=? 255) then n else to_u8 (oor_to_u8 p n).

(** [(uint8_t) q] *)
Definition double_to_u8 (p : platform) (q : Q) : Z :=
  u8_of_integer_part p (trunc q).

(** [(int) q]; every use is inside the range of [int]. *)
Definition double_to_int (q : Q) : Z := to_int (trunc q).

(** ** Macros *)

Definition PI_DEG : Z := 180.
Definition PI2_DEG : Z := 90.
Definition RANGE_M1 : Z := PI_DEG.
Definition RANGE_M2 : Z := PI_DEG.
Definition RANGE_M3 : Z := 165.
Definition RANGE_M4 : Z := PI_DEG.
Definition RANGE_M5 : Z := PI_DEG.
Definition ANGLE_INIT_M1 : Z := PI2_DEG.
Definition ANGLE_INIT_M2 : Z := PI_DEG.
Definition ANGLE_INIT_M3 : Z := RANGE_M3.
Definition ANGLE_INIT_M4 : Z := PI2_DEG.
Definition ANGLE_INIT_M5 : Z := PI_DEG.
Definition ACC : Z := 320.
Definition TF : Z := 1500.

(** ** Data structures *)

Record motor_dynamics_t := {
  forward : bool;
  t1 : Z;         (* uint32_t *)
  t2 : Z;         (* uint32_t *)
  angle_t0 : Z;   (* uint8_t *)
  angle_t1 : Z;   (* uint8_t *)
  angle_t2 : Z;   (* uint8_t *)
  angle_tf : Z;   (* uint8_t *)
  delta : Z       (* int *)
}.

Definition set_angle_tf (dyn : motor_dynamics_t) (a : Z) : motor_dynamics_t :=
  {| forward := forward dyn; t1 := t1 dyn; t2 := t2 dyn;
     angle_t0 := angle_t0 dyn; angle_t1 := angle_t1 dyn;
     angle_t2 := angle_t2 dyn; angle_tf := a; delta := delta dyn |}.

(** ** Trajectory profile *)

(** [const byte DISTANCE = sqrt(pow(dyn->angle_tf - dyn->angle_t0, 2));] *)
Definition DISTANCE_of (p : platform) (a0 atf : Z) : Z :=
  u8_of_integer_part p (trunc_sqrt (pow2 (inject_Z (atf - a0)))).

(** [dyn->delta = pow(TF * ACC / 1000.0, 2) - 4 * DISTANCE * ACC;] *)
Definition delta_of (DISTANCE : Z) : Z :=
  double_to_int (pow2 (inject_Z (int_mul TF ACC) / 1000)
                 - inject_Z (int_mul (int_mul 4 DISTANCE) ACC))%Q.

(** [const int SPEED = 0.5 * (TF * ACC / 1000.0 - pow(dyn->delta, 0.5));]
    the square root of a negative [delta] is a NaN. *)
Definition SPEED_of (p : platform) (dlt : Z) : Z :=
  if dlt <? 0 then nan_to_int p
  else to_int (half_diff_sqrt (inject_Z (int_mul TF ACC) / 1000)%Q dlt).

(** [dyn->t1 = 1000 * SPEED / ACC;] *)
Definition t1_of (p : platform) (SPEED : Z) : Z :=
  to_u32 (int_div p (int_mul 1000 SPEED) ACC).

Definition compute_dynamics (p : platform) (dyn : motor_dynamics_t)
    (current_angle : Z) : motor_dynamics_t :=
  let a0 := current_angle in
  let atf := angle_tf dyn in
  let fwd := a0 <? atf in
  let DISTANCE := DISTANCE_of p a0 atf in
  let dlt := delta_of DISTANCE in
  let SPEED := SPEED_of p dlt in
  let t1' := t1_of p SPEED in
  let t2' := to_u32 (TF - t1') in
  let SIGN := int_div p (atf - a0) DISTANCE in
  let a1 :=
    double_to_u8 p
      (inject_Z a0
       + inject_Z (int_mul SIGN ACC) * pow2 (inject_Z t1' / 1000) / 2)%Q in
  let a2 :=
    double_to_u8 p
      (inject_Z a1
       + inject_Z (u32_mul (to_u32 (int_mul SIGN SPEED)) (to_u32 (t2' - t1')))
         / 1000)%Q in
  {| forward := fwd; t1 := t1'; t2 := t2';
     angle_t0 := a0; angle_t1 := a1; angle_t2 := a2; angle_tf := atf;
     delta := dlt |}.

(** The value of the double that [compute_angle] converts to [uint8_t] in
    its first and third branch. *)
Definition accel_phase (dyn : motor_dynamics_t) (t : Z) : Q :=
  if forward dyn
  then (pow2 (inject_Z t / 1000) * inject_Z ACC / 2 + inject_Z (angle_t0 dyn))%Q
  else (- pow2 (inject_Z t / 1000) * inject_Z ACC / 2 + inject_Z (angle_t0 dyn))%Q.

Definition decel_phase (dyn : motor_dynamics_t) (t : Z) : Q :=
  if forward dyn
  then (- pow2 (inject_Z (to_u32 (TF - t)) / 1000) * inject_Z ACC / 2
        + inject_Z (angle_tf dyn))%Q
  else (pow2 (inject_Z (to_u32 (t - TF)) / 1000) * inject_Z ACC / 2
        + inject_Z (angle_tf dyn))%Q.

(** The second branch is integer arithmetic: [t], [t1] and [t2] are
    [uint32_t], so the [int] difference of the two angles is converted to
    unsigned before it is multiplied and divided. *)
Definition cruise_phase (dyn : motor_dynamics_t) (t : Z) : Z :=
  let d := to_u32 (angle_t2 dyn - angle_t1 dyn) in
  let span := to_u32 (t2 dyn - t1 dyn) in
  let B := to_int (to_u32 (angle_t1 dyn - u32_div (u32_mul d (t1 dyn)) span)) in
  to_u8 (to_u32 (u32_div (u32_mul t d) span + B)).

Definition compute_angle (p : platform) (dyn : motor_dynamics_t) (t : Z) : Z :=
  if t <=? t1 dyn then double_to_u8 p (accel_phase dyn t)
  else if (t1 dyn <? t) && (t <=? t2 dyn) then cruise_phase dyn t
  else if (t2 dyn <? t) && (t <=? TF) then double_to_u8 p (decel_phase dyn t)
  else angle_tf dyn.

(** ** Collaborators outside the repository *)

Module Arduino.

(** Modelled from the spec: the core's [map], which the interpreter uses
    for the percentage ("linearly mapped to that axis's travel range"), is
    [(x - in_min) * (out_max - out_min) / (in_max - in_min) + out_min] in
    [long] arithmetic, the division truncating toward zero. *)
Definition map (v in_min in_max out_min out_max : Z) : Z :=
  to_long (to_long (Z.quot (to_long (to_long (v - in_min)
                                      * to_long (out_max - out_min)))
                           (to_long (in_max - in_min)))
           + out_min).

(** Modelled from the spec: [String::operator[]], which yields the NUL
    character beyond the end of the line. *)
Definition char_at (s : string) (i : nat) : ascii :=
  match String.get i s with
  | Some c => c
  | None => zero
  end.

Definition code (c : ascii) : Z := Z.of_nat (nat_of_ascii c).

Definition is_digit (c : ascii) : bool := (48 <=? code c) && (code c <=? 57).

Definition is_space (c : ascii) : bool :=
  (code c =? 32) || ((9 <=? code c) && (code c <=? 13)).

Fixpoint skip_spaces (s : string) : string :=
  match s with
  | String c s' => if is_space c then skip_spaces s' else s
  | EmptyString => s
  end.

Fixpoint digits_value (s : string) (acc : Z) : Z :=
  match s with
  | String c s' =>
      if is_digit c then digits_value s' (10 * acc + (code c - 48)) else acc
  | EmptyString => acc
  end.

(** Modelled from the spec: [String::toInt], the C library's [atol] on the
    buffer: blanks, an optional sign, then digits up to the first other
    character; 0 when there is no digit. *)
Definition toInt (s : string) : Z :=
  to_long
    match skip_spaces s with
    | String "-" s' => - digits_value s' 0
    | String "+" s' => digits_value s' 0
    | s' => digits_value s' 0
    end.

(** [String(n)] for an integer [n] *)
Definition String_of_int (n : Z) : string := NilZero.string_of_int (Z.to_int n).

End Arduino.

Definition LF : string := String "010" EmptyString.
Definition CRLF : string := String "013" LF.

(** ** Global variables *)

Inductive servo_id := SM1 | SM2 | SM2s | SM3 | SM4 | SM5.

Inductive axis := A1 | A2 | A3 | A4 | A5.

(** Modelled from the spec: a [Servo] object is the actuator of the
    glossary, "accepting an angle command and exposing its last commanded
    angle"; its state is that angle.  [servo_writes] records every call of
    [write], in order, and [serial_out] every [Serial.print]. *)
Record robot := {
  M1 : Z;
  M2 : Z;
  M2s : Z;
  M3 : Z;
  M4 : Z;
  M5 : Z;
  dynamics_M1 : motor_dynamics_t;
  dynamics_M2 : motor_dynamics_t;
  dynamics_M3 : motor_dynamics_t;
  dynamics_M4 : motor_dynamics_t;
  dynamics_M5 : motor_dynamics_t;
  cartesian_pos : cartesian_position_t;
  motor_id : ascii;
  single_motor_mode : bool;
  cartesian_mode : bool;
  single_motor_running : bool;
  five_axis_running : bool;
  serial_out : list string;
  servo_writes : list (servo_id * Z)
}.

Definition Servo_read (s : servo_id) (st : robot) : Z :=
  match s with
  | SM1 => M1 st | SM2 => M2 st | SM2s => M2s st
  | SM3 => M3 st | SM4 => M4 st | SM5 => M5 st
  end.

Definition Servo_write (s : servo_id) (v : Z) (st : robot) : robot :=
  let 'Build_robot m1 m2 m2s m3 m4 m5 d1 d2 d3 d4 d5 cp id sm cm sr fr out ws := st in
  let ws' := ws ++ [(s, v)] in
  match s with
  | SM1 => Build_robot v m2 m2s m3 m4 m5 d1 d2 d3 d4 d5 cp id sm cm sr fr out ws'
  | SM2 => Build_robot m1 v m2s m3 m4 m5 d1 d2 d3 d4 d5 cp id sm cm sr fr out ws'
  | SM2s => Build_robot m1 m2 v m3 m4 m5 d1 d2 d3 d4 d5 cp id sm cm sr fr out ws'
  | SM3 => Build_robot m1 m2 m2s v m4 m5 d1 d2 d3 d4 d5 cp id sm cm sr fr out ws'
  | SM4 => Build_robot m1 m2 m2s m3 v m5 d1 d2 d3 d4 d5 cp id sm cm sr fr out ws'
  | SM5 => Build_robot m1 m2 m2s m3 m4 v d1 d2 d3 d4 d5 cp id sm cm sr fr out ws'
  end.

Definition dynamics (a : axis) (st : robot) : motor_dynamics_t :=
  match a with
  | A1 => dynamics_M1 st | A2 => dynamics_M2 st | A3 => dynamics_M3 st
  | A4 => dynamics_M4 st | A5 => dynamics_M5 st
  end.

Definition set_dynamics (a : axis) (d : motor_dynamics_t) (st : robot) : robot :=
  let 'Build_robot m1 m2 m2s m3 m4 m5 d1 d2 d3 d4 d5 cp id sm cm sr fr out ws := st in
  match a with
  | A1 => Build_robot m1 m2 m2s m3 m4 m5 d d2 d3 d4 d5 cp id sm cm sr fr out ws
  | A2 => Build_robot m1 m2 m2s m3 m4 m5 d1 d d3 d4 d5 cp id sm cm sr fr out ws
  | A3 => Build_robot m1 m2 m2s m3 m4 m5 d1 d2 d d4 d5 cp id sm cm sr fr out ws
  | A4 => Build_robot m1 m2 m2s m3 m4 m5 d1 d2 d3 d d5 cp id sm cm sr fr out ws
  | A5 => Build_robot m1 m2 m2s m3 m4 m5 d1 d2 d3 d4 d cp id sm cm sr fr out ws
  end.

Definition set_cartesian_pos (cp : cartesian_position_t) (st : robot) : robot :=
  let 'Build_robot m1 m2 m2s m3 m4 m5 d1 d2 d3 d4 d5 _ id sm cm sr fr out ws := st in
  Build_robot m1 m2 m2s m3 m4 m5 d1 d2 d3 d4 d5 cp id sm cm sr fr out ws.

Definition set_motor_id (id : ascii) (st : robot) : robot :=
  let 'Build_robot m1 m2 m2s m3 m4 m5 d1 d2 d3 d4 d5 cp _ sm cm sr fr out ws := st in
  Build_robot m1 m2 m2s m3 m4 m5 d1 d2 d3 d4 d5 cp id sm cm sr fr out ws.

Definition set_modes (sm cm : bool) (st : robot) : robot :=
  let 'Build_robot m1 m2 m2s m3 m4 m5 d1 d2 d3 d4 d5 cp id _ _ sr fr out ws := st in
  Build_robot m1 m2 m2s m3 m4 m5 d1 d2 d3 d4 d5 cp id sm cm sr fr out ws.

Definition set_single_motor_running (b : bool) (st : robot) : robot :=
  let 'Build_robot m1 m2 m2s m3 m4 m5 d1 d2 d3 d4 d5 cp id sm cm _ fr out ws := st in
  Build_robot m1 m2 m2s m3 m4 m5 d1 d2 d3 d4 d5 cp id sm cm b fr out ws.

Definition set_five_axis_running (b : bool) (st : robot) : robot :=
  let 'Build_robot m1 m2 m2s m3 m4 m5 d1 d2 d3 d4 d5 cp id sm cm sr _ out ws := st in
  Build_robot m1 m2 m2s m3 m4 m5 d1 d2 d3 d4 d5 cp id sm cm sr b out ws.

Definition Serial_print (s : string) (st : robot) : robot :=
  let 'Build_robot m1 m2 m2s m3 m4 m5 d1 d2 d3 d4 d5 cp id sm cm sr fr out ws := st in
  Build_robot m1 m2 m2s m3 m4 m5 d1 d2 d3 d4 d5 cp id sm cm sr fr (out ++ [s]) ws.

Definition Serial_println (s : string) (st : robot) : robot :=
  Serial_print (s ++ CRLF) st.

(** [compute_dynamics(&dynamics_Mi, Mi.read())]: the parameter is a
    [uint8_t]. *)
Definition plan_axis (p : platform) (a : axis) (s : servo_id) (st : robot) : robot :=
  set_dynamics a (compute_dynamics p (dynamics a st) (to_u8 (Servo_read s st))) st.

(** [dynamics_Mi.angle_tf = v;] *)
Definition assign_angle_tf (a : axis) (v : Z) (st : robot) : robot :=
  set_dynamics a (set_angle_tf (dynamics a st) (to_u8 v)) st.

(** [Mi.write(compute_angle(&dynamics_Mj, t))] *)
Definition dispatch (p : platform) (s : servo_id) (a : axis) (t : Z) (st : robot) : robot :=
  Servo_write s (compute_angle p (dynamics a st) t) st.

(** ** Scheduler *)

Definition is_delta_positive (st : robot) : bool :=
  (0 <=? delta (dynamics_M1 st))
  && (0 <=? delta (dynamics_M2 st))
  && (0 <=? delta (dynamics_M3 st))
  && (0 <=? delta (dynamics_M4 st))
  && (0 <=? delta (dynamics_M5 st)).

Definition dispatch_all (p : platform) (t : Z) (st : robot) : robot :=
  dispatch p SM5 A5 t
    (dispatch p SM4 A4 t
      (dispatch p SM3 A3 t
        (dispatch p SM2s A2 t
          (dispatch p SM2 A2 t
            (dispatch p SM1 A1 t st))))).

(** One pass through the body of [while (!Serial.available())], at elapsed
    time [t = millis() - t0]. *)
Definition scheduler_iteration (p : platform) (t : Z) (st : robot) : robot :=
  if is_delta_positive st then
    if single_motor_running st then
      match motor_id st with
      | "1"%char => dispatch p SM1 A1 t st
      | "2"%char => dispatch p SM2s A2 t (dispatch p SM2 A2 t st)
      | "3"%char => dispatch p SM3 A3 t st
      | "4"%char => dispatch p SM4 A4 t st
      | "5"%char => dispatch p SM5 A5 t st
      | _ => st
      end
    else if five_axis_running st then dispatch_all p t st
    else st
  else st.

(** The scheduler loop while no line is pending: one iteration per
    reading of [millis()]. *)
Fixpoint scheduler_run (p : platform) (t0 : Z) (readings : list Z) (st : robot) : robot :=
  match readings with
  | [] => st
  | now :: rest =>
      scheduler_run p t0 rest (scheduler_iteration p (to_u32 (now - t0)) st)
  end.

(** ** Inverse kinematics: the validation and the commit *)

Definition unreachable_report : string :=
  "Error(get_angles_from_cartesian): End position is outside of work enveloppe".

(** The test of the [if], on the five [byte] constants. *)
Definition within_work_envelope (a1 a2 a3 a4 a5 : Z) : bool :=
  (0 <=? a1) && (a1 <=? RANGE_M1)
  && (0 <=? a2) && (a2 <=? RANGE_M2)
  && (0 <=? a3) && (a3 <=? RANGE_M3)
  && (0 <=? a4) && (a4 <=? RANGE_M4)
  && (0 <=? a5) && (a5 <=? RANGE_M5).

(** [get_angles_from_cartesian(&cartesian_pos)].  [round] is the core's
    macro and yields a [long]; each [const byte ANGLE_Mi] keeps its low
    eight bits. *)
Definition get_angles_from_cartesian (p : platform) (st : robot) : robot :=
  let pos := wrist_pivot p (cartesian_pos st) in
  let st := set_cartesian_pos pos st in
  let j := kinematics p pos in
  let a1 := to_u8 (ANGLE_M1 j) in
  let a2 := to_u8 (ANGLE_M2 j) in
  let a3 := to_u8 (ANGLE_M3 j) in
  let a4 := to_u8 (ANGLE_M4 j) in
  let a5 := to_u8 (ANGLE_M5 j) in
  if within_work_envelope a1 a2 a3 a4 a5 then
    assign_angle_tf A5 a5
      (assign_angle_tf A4 a4
        (assign_angle_tf A3 a3
          (assign_angle_tf A2 a2
            (assign_angle_tf A1 a1 st))))
  else Serial_println unreachable_report st.

(** ** Reset *)

Definition plan_all (p : platform) (st : robot) : robot :=
  plan_axis p A5 SM5
    (plan_axis p A4 SM4
      (plan_axis p A3 SM3
        (plan_axis p A2 SM2
          (plan_axis p A1 SM1 st)))).

(** The [do ... while (t > TF)] of [reset_robot]: [clk k] is what the
    [k]-th call of [millis()] returns; [None] when [fuel] iterations did
    not end the loop. *)
Fixpoint reset_loop (p : platform) (fuel : nat) (clk : nat -> Z) (k : nat)
    (t0 : Z) (st : robot) : option robot :=
  match fuel with
  | O => None
  | S fuel' =>
      let t := to_long (to_u32 (to_u32 (clk k) - t0)) in
      let st' := dispatch_all p (to_u32 t) st in
      if TF <? t then reset_loop p fuel' clk (S k) t0 st' else Some st'
  end.

Definition reset_robot (p : platform) (fuel : nat) (clk : nat -> Z)
    (st : robot) : option robot :=
  let st := assign_angle_tf A1 ANGLE_INIT_M1 st in
  let st := assign_angle_tf A2 ANGLE_INIT_M2 st in
  let st := assign_angle_tf A3 ANGLE_INIT_M3 st in
  let st := assign_angle_tf A4 ANGLE_INIT_M4 st in
  let st := assign_angle_tf A5 ANGLE_INIT_M5 st in
  let st := plan_all p st in
  let t0 := to_long (to_u32 (clk O)) in
  reset_loop p fuel clk 1%nat t0 st.

(** ** Command interpreter *)

Definition chars3 (s : string) (i : nat) : string :=
  String (Arduino.char_at s i)
    (String (Arduino.char_at s (i + 1))
      (String (Arduino.char_at s (i + 2)) EmptyString)).

Definition chars4 (s : string) (i : nat) : string :=
  String (Arduino.char_at s i) (chars3 s (i + 1)).

(** The [if (single_motor_mode)] branch. *)
Definition single_motor_command (p : platform) (input : string) (st : robot) : robot :=
  let st := Serial_print ("> " ++ input) st in
  let st := set_motor_id (Arduino.char_at input 1) st in
  let percent := to_int (Arduino.toInt (chars3 input 3)) in
  let st :=
    match motor_id st with
    | "1"%char =>
        plan_axis p A1 SM1
          (assign_angle_tf A1 (Arduino.map percent 0 100 0 RANGE_M1) st)
    | "2"%char =>
        plan_axis p A2 SM2
          (assign_angle_tf A2 (Arduino.map percent 0 100 RANGE_M2 0) st)
    | "3"%char =>
        plan_axis p A3 SM3
          (assign_angle_tf A3 (Arduino.map percent 0 100 RANGE_M3 0) st)
    | "4"%char =>
        plan_axis p A4 SM4
          (assign_angle_tf A4 (Arduino.map percent 0 100 RANGE_M4 0) st)
    | "5"%char =>
        plan_axis p A5 SM5
          (assign_angle_tf A5 (Arduino.map percent 0 100 0 RANGE_M5) st)
    | _ => st
    end in
  set_single_motor_running true st.

(** The three assignments to [cartesian_pos.x], [.y] and [.z]. *)
Definition parse_cartesian (input : string) (cp : cartesian_position_t)
    : cartesian_position_t :=
  {| x := to_i16 (Arduino.toInt (chars4 input 0));
     y := to_i16 (Arduino.toInt (chars3 input 5));
     z := to_i16 (Arduino.toInt (chars3 input 9));
     yaw := yaw cp; pitch := pitch cp |}.

(** The [else if (cartesian_mode)] branch. *)
Definition cartesian_command (p : platform) (input : string) (st : robot) : robot :=
  let st := set_cartesian_pos (parse_cartesian input (cartesian_pos st)) st in
  let st := get_angles_from_cartesian p st in
  let st := plan_all p st in
  let st := Serial_print "> Input position:" st in
  let tab := String "009" EmptyString in
  let st := Serial_print (tab ++ "x=" ++ Arduino.String_of_int (x (cartesian_pos st))) st in
  let st := Serial_print (tab ++ "y=" ++ Arduino.String_of_int (y (cartesian_pos st))) st in
  let st := Serial_print (tab ++ "z=" ++ Arduino.String_of_int (z (cartesian_pos st)) ++ LF) st in
  set_five_axis_running true st.

(** "If input is not a mode, then it is a value". *)
Definition value_command (p : platform) (input : string) (st : robot) : robot :=
  let st :=
    if single_motor_mode st then single_motor_command p input st
    else if cartesian_mode st then cartesian_command p input st
    else Serial_println "Error(loop): Unknown command" st in
  if is_delta_positive st then st
  else Serial_println "Error(loop): Too low acceleration" st.

(** The part of [loop] that follows the scheduler: the line [input] has
    arrived. *)
Definition loop_input (p : platform) (fuel : nat) (clk : nat -> Z)
    (input : string) (st : robot) : option robot :=
  let st := set_single_motor_running false st in
  let st := set_five_axis_running false st in
  if String.eqb input ("motor" ++ LF) then
    Some (Serial_println "Single motor mode accessed. Format: MX.%%%"
            (set_modes true false st))
  else if String.eqb input ("reset" ++ LF) then
    match reset_robot p fuel clk (set_modes false false st) with
    | Some st' => Some (Serial_println "The robot has been reset." st')
    | None => None
    end
  else Some (value_command p input st).

(** ** Two conventions for what the targets leave behind *)

Definition no_kinematics : joint_angles_t :=
  {| ANGLE_M1 := 0; ANGLE_M2 := 0; ANGLE_M3 := 0; ANGLE_M4 := 0; ANGLE_M5 := 0 |}.

(** Out-of-range conversions saturate, NaN and [a / 0] give 0. *)
Definition saturating : platform :=
  {| sdiv_zero := fun _ => 0; nan_to_int := 0;
     oor_to_u8 := fun n => if n <? 0 then 0 else 255;
     wrist_pivot := fun pos => pos;
     kinematics := fun _ => no_kinematics |}.

(** Out-of-range conversions keep the low bits, NaN gives the largest
    [int] and [a / 0] gives -1. *)
Definition wrapping : platform :=
  {| sdiv_zero := fun _ => -1; nan_to_int := 2 ^ 31 - 1;
     oor_to_u8 := fun n => n;
     wrist_pivot := fun pos => pos;
     kinematics := fun _ => no_kinematics |}.

(** The globals before [setup]: zero-initialised. *)
Definition zero_dynamics : motor_dynamics_t :=
  {| forward := false; t1 := 0; t2 := 0; angle_t0 := 0; angle_t1 := 0;
     angle_t2 := 0; angle_tf := 0; delta := 0 |}.

Definition power_on : robot :=
  {| M1 := 0; M2 := 0; M2s := 0; M3 := 0; M4 := 0; M5 := 0;
     dynamics_M1 := zero_dynamics; dynamics_M2 := zero_dynamics;
     dynamics_M3 := zero_dynamics; dynamics_M4 := zero_dynamics;
     dynamics_M5 := zero_dynamics;
     cartesian_pos := {| x := 0; y := 0; z := 0; yaw := 0; pitch := 0 |};
     motor_id := zero;
     single_motor_mode := false; cartesian_mode := false;
     single_motor_running := false; five_axis_running := false;
     serial_out := []; servo_writes := [] |}.

Definition initialise_robot (st : robot) : robot :=
  Servo_write SM5 ANGLE_INIT_M5
    (Servo_write SM4 ANGLE_INIT_M4
      (Servo_write SM3 ANGLE_INIT_M3
        (Servo_write SM2s ANGLE_INIT_M2
          (Servo_write SM2 ANGLE_INIT_M2
            (Servo_write SM1 ANGLE_INIT_M1 st))))).

(** The state [setup] leaves (its banner is not recorded). *)
Definition after_setup : robot := initialise_robot power_on.

(** ** Definitions used by the statements *)

Definition upto (n : nat) : list Z := List.map Z.of_nat (seq 0 n).

(** What the planner computes from a distance, checked on every byte
    distance: the discriminant, the range of the peak speed and of [t1]
    when the discriminant is not negative, and when they vanish. *)
Definition plan_check_values (D dlt s t u : Z) : bool :=
  (dlt =? 230400 - 1280 * D)
  && ((dlt <? 0)
      || ((0 <=? s) && (s <=? 240) && (0 <=? t) && (t <=? 750)
          && (u =? 1500 - t)
          && ((0 <? t) || ((s =? 0) && (D <=? 1)))
          && ((0 <? D) || ((s =? 0) && (t =? 0)))
          && ((D <=? 1) || (3 <=? t)))).

Definition servo_of (a : axis) : servo_id :=
  match a with A1 => SM1 | A2 => SM2 | A3 => SM3 | A4 => SM4 | A5 => SM5 end.

Definition char_of (a : axis) : ascii :=
  match a with
  | A1 => "1" | A2 => "2" | A3 => "3" | A4 => "4" | A5 => "5"
  end%char.

(** The target the interpreter stores for an axis. *)
Definition mapped_angle (a : axis) (percent : Z) : Z :=
  match a with
  | A1 => Arduino.map percent 0 100 0 RANGE_M1
  | A2 => Arduino.map percent 0 100 RANGE_M2 0
  | A3 => Arduino.map percent 0 100 RANGE_M3 0
  | A4 => Arduino.map percent 0 100 RANGE_M4 0
  | A5 => Arduino.map percent 0 100 0 RANGE_M5
  end.

(** The lines [M<id>.<ppp>]. *)
Definition digit_char (d : Z) : ascii := ascii_of_nat (48 + Z.to_nat d).

Definition percent_digits (n : Z) : string :=
  String (digit_char (n / 100))
    (String (digit_char (n / 10 mod 10))
      (String (digit_char (n mod 10)) EmptyString)).

Definition motor_command (a : axis) (n : Z) : string :=
  String "M" (String (char_of a) (String "." (percent_digits n))) ++ LF.

Definition parse_check_values (c c' : ascii) (v n : Z) (b1 b2 : bool) : bool :=
  Ascii.eqb c c' && (v =? n) && negb b1 && negb b2.

(** The state after [setup] and the line [motor]. *)
Definition single_motor_state : robot := set_modes true false after_setup.

Definition range_of (a : axis) : Z :=
  match a with
  | A1 => RANGE_M1 | A2 => RANGE_M2 | A3 => RANGE_M3
  | A4 => RANGE_M4 | A5 => RANGE_M5
  end.

(** The linear map of the interface table, in whole degrees: direct on
    axes 1 and 5, reversed on axes 2, 3 and 4. *)
Definition linear_target (a : axis) (n : Z) : Z :=
  match a with
  | A1 | A5 => n * range_of a / 100
  | A2 | A3 | A4 => range_of a - n * range_of a / 100
  end.

(** A state in which all five axes are running and axis 1 holds a plan
    from 0 to 234 degrees. *)
Definition gated_state : robot :=
  set_dynamics A1 (compute_dynamics saturating (set_angle_tf zero_dynamics 234) 0)
    (set_five_axis_running true after_setup).

(** The property of the sampler on [0, TF]: it moves toward the target
    and stays on the near side of it. *)
Definition monotone_toward_target (p : platform) (d : motor_dynamics_t) : Prop :=
  (angle_t0 d <= angle_tf d ->
   forall t t', 0 <= t <= t' -> t' <= TF ->
     compute_angle p d t <= compute_angle p d t' <= angle_tf d)
  /\ (angle_tf d <= angle_t0 d ->
      forall t t', 0 <= t <= t' -> t' <= TF ->
        angle_tf d <= compute_angle p d t' <= compute_angle p d t).

(** The five bytes the solver tests and commits. *)
Definition solved_byte (p : platform) (st : robot) (a : axis) : Z :=
  let j := kinematics p (wrist_pivot p (cartesian_pos st)) in
  to_u8 match a with
        | A1 => ANGLE_M1 j | A2 => ANGLE_M2 j | A3 => ANGLE_M3 j
        | A4 => ANGLE_M4 j | A5 => ANGLE_M5 j
        end.

Definition accepted (p : platform) (st : robot) : bool :=
  within_work_envelope (solved_byte p st A1) (solved_byte p st A2)
    (solved_byte p st A3) (solved_byte p st A4) (solved_byte p st A5).

(** The rounded angles of the solver for the wrist-pivot point of the
    line [-300.-90.290] (x = -300, y = -90, z = 290 - 35, yaw = pitch = 0):
    the elbow triangle is almost flat, [BETA] is 168.4 degrees and
    [PI_DEG - INVR_TRANS_UA * (DEG(BETA) - ANGLE_INIT_UA)] is -96.8. *)
Definition stretched_arm : joint_angles_t :=
  {| ANGLE_M1 := 17; ANGLE_M2 := 17; ANGLE_M3 := -97; ANGLE_M4 := 162;
     ANGLE_M5 := 130 |}.

(** A platform whose solver yields them at that point; the wrist offset
    is the one of yaw = pitch = 0. *)
Definition stretched_platform : platform :=
  {| sdiv_zero := sdiv_zero saturating; nan_to_int := nan_to_int saturating;
     oor_to_u8 := oor_to_u8 saturating;
     wrist_pivot := fun pos =>
       {| x := x pos; y := y pos; z := z pos - 35; yaw := yaw pos; pitch := pitch pos |};
     kinematics := fun pos =>
       if (x pos =? -300) && (y pos =? -90) && (z pos =? 255)
       then stretched_arm else no_kinematics |}.

(** The state [reset_robot] has planned, before its loop. *)
Definition reset_plan (p : platform) (st : robot) : robot :=
  plan_all p
    (assign_angle_tf A5 ANGLE_INIT_M5
      (assign_angle_tf A4 ANGLE_INIT_M4
        (assign_angle_tf A3 ANGLE_INIT_M3
          (assign_angle_tf A2 ANGLE_INIT_M2
            (assign_angle_tf A1 ANGLE_INIT_M1 st))))).

Definition init_angle (a : axis) : Z :=
  match a with
  | A1 => ANGLE_INIT_M1 | A2 => ANGLE_INIT_M2 | A3 => ANGLE_INIT_M3
  | A4 => ANGLE_INIT_M4 | A5 => ANGLE_INIT_M5
  end.

(** Axis 3 moved to 100 degrees, then [reset] with both readings of
    [millis()] in the same millisecond. *)
Definition axis3_displaced : robot := Servo_write SM3 100 after_setup.

(** The state after [setup] with the cartesian mode switched on, and a
    platform whose solver yields an elbow angle of 229 degrees. *)
Definition cartesian_state : robot := set_modes false true after_setup.

(** That state once the line [-300.-90.290] has been parsed. *)
Definition stretched_state : robot :=
  set_cartesian_pos
    (parse_cartesian ("-300.-90.290" ++ LF) (cartesian_pos cartesian_state))
    cartesian_state.

Definition folded_platform : platform :=
  {| sdiv_zero := sdiv_zero saturating; nan_to_int := nan_to_int saturating;
     oor_to_u8 := oor_to_u8 saturating;
     wrist_pivot := wrist_pivot saturating;
     kinematics := fun _ =>
       {| ANGLE_M1 := 90; ANGLE_M2 := 112; ANGLE_M3 := 229; ANGLE_M4 := 90;
          ANGLE_M5 := 180 |} |}.

(** ** The main loop *)

(** One execution of [loop]: the scheduler runs on the readings of
    [millis()] taken while no line is pending, then the line is
    interpreted. *)
Record loop_pass := {
  pass_t0 : Z;
  pass_readings : list Z;
  pass_input : string;
  pass_fuel : nat;
  pass_clock : nat -> Z
}.

Definition loop (p : platform) (ps : loop_pass) (st : robot) : option robot :=
  loop_input p (pass_fuel ps) (pass_clock ps) (pass_input ps)
    (scheduler_run p (pass_t0 ps) (pass_readings ps) st).

(** Successive executions of [loop]; [None] when a reset did not return
    within its fuel. *)
Fixpoint run_loops (p : platform) (passes : list loop_pass) (st : robot)
    : option robot :=
  match passes with
  | [] => Some st
  | ps :: rest =>
      match loop p ps st with
      | Some st' => run_loops p rest st'
      | None => None
      end
  end.

(** ** Definitions used by the further statements *)

(** Whether a character selects one of the five motors. *)
Definition selects_motor (c : ascii) : bool :=
  match c with
  | "1"%char | "2"%char | "3"%char | "4"%char | "5"%char => true
  | _ => false
  end.

(** The servos an axis drives. *)
Definition drives (a : axis) (s : servo_id) : bool :=
  match a, s with
  | A1, SM1 | A2, SM2 | A2, SM2s | A3, SM3 | A4, SM4 | A5, SM5 => true
  | _, _ => false
  end.

(** The elapsed time [t] the [j]-th reading of [millis()] gives inside
    [reset_robot] (reading 0 is [t0]). *)
Definition reset_elapsed (clk : nat -> Z) (j : nat) : Z :=
  to_long (to_u32 (to_u32 (clk j) - to_long (to_u32 (clk O)))).

(** The rounded angle of an axis, as the solver computes it before the
    assignment to a [byte]. *)
Definition rounded_angle (p : platform) (st : robot) (a : axis) : Z :=
  let j := kinematics p (wrist_pivot p (cartesian_pos st)) in
  match a with
  | A1 => ANGLE_M1 j | A2 => ANGLE_M2 j | A3 => ANGLE_M3 j
  | A4 => ANGLE_M4 j | A5 => ANGLE_M5 j
  end.

(** A session: [motor], a move of axis 2, a line that is no command of
    that mode, a reset, each after some scheduler iterations. *)
Definition demo_session : list loop_pass :=
  [ {| pass_t0 := 0; pass_readings := [0; 10]; pass_input := "motor" ++ LF;
       pass_fuel := 1; pass_clock := fun _ => 0 |};
    {| pass_t0 := 1000; pass_readings := [1000; 1200; 1400];
       pass_input := "M2.050" ++ LF; pass_fuel := 1; pass_clock := fun _ => 0 |};
    {| pass_t0 := 2000; pass_readings := [2100; 2500; 4000];
       pass_input := "0100.200.300" ++ LF; pass_fuel := 1; pass_clock := fun _ => 0 |};
    {| pass_t0 := 5000; pass_readings := [5001];
       pass_input := "reset" ++ LF; pass_fuel := 1; pass_clock := fun _ => 6000 |} ].

Definition axis_eq_dec (a b : axis) : {a = b} + {a <> b}.
Proof. decide equality. Defined.

(** The whole degrees a move toward a larger angle has covered [t] ms
    after its start, from the distance [D], the peak speed [s] and the
    time [T1] of the plan: the three branches of [compute_angle] with the
    current angle taken off. *)
Definition forward_offset (D s T1 t : Z) : Z :=
  let T2 := 1500 - T1 in
  let A1 := T1 * T1 / 6250 in
  let A2 := s * (T2 - T1) / 1000 in
  if t <=? T1 then t * t / 6250
  else if t <=? T2 then A1 + (t * A2 / (T2 - T1) - A2 * T1 / (T2 - T1))
  else (D * 6250 - (1500 - t) * (1500 - t)) / 6250.

(** What is checked of one plan: the bounds of the peak speed and of
    [T1], and that the distance the three phases cover,
    [2 * T1^2 / 6250 + s * (1500 - 2 * T1) / 1000] before any truncation,
    does not exceed the distance [D] (the inequality is scaled by
    50000). *)
Definition forward_plan_ok (D s T1 : Z) : bool :=
  (0 <=? s) && (s <=? 240) && (0 <=? T1) && (T1 <=? 750)
  && (16 * (T1 * T1) + 50 * (s * (1500 - T1 - T1)) <=? 50000 * D).

(** * Properties *)

(** ** Machine arithmetic *)

Lemma to_u8_small n : 0 <= n <= 255 -> to_u8 n = n.
Proof. intros H. unfold to_u8. apply Z.mod_small. lia. Qed.

Lemma to_u8_range n : 0 <= to_u8 n <= 255.
Proof. unfold to_u8. pose proof (Z.mod_pos_bound n 256). lia. Qed.

Lemma to_u32_small n : 0 <= n < 2 ^ 32 -> to_u32 n = n.
Proof. intros H. unfold to_u32. apply Z.mod_small. lia. Qed.

Lemma to_u32_range n : 0 <= to_u32 n < 2 ^ 32.
Proof. unfold to_u32. apply Z.mod_pos_bound. lia. Qed.

Lemma to_int_small n : - 2 ^ 31 <= n < 2 ^ 31 -> to_int n = n.
Proof. intros H. unfold to_int. rewrite Z.mod_small; lia. Qed.

Lemma int_div_nonzero p a b : b <> 0 -> int_div p a b = to_int (Z.quot a b).
Proof.
  intros H. unfold int_div. destruct (Z.eqb_spec b 0); [contradiction | reflexivity].
Qed.

Lemma u8_of_integer_part_small p n : 0 <= n <= 255 -> u8_of_integer_part p n = n.
Proof.
  intros [H0 H1]. unfold u8_of_integer_part.
  apply Z.leb_le in H0, H1. now rewrite H0, H1.
Qed.

Lemma u8_of_integer_part_range p n : 0 <= u8_of_integer_part p n <= 255.
Proof.
  unfold u8_of_integer_part.
  destruct (0 <=? n) eqn:H0; destruct (n <=? 255) eqn:H1; simpl;
    try apply to_u8_range.
  apply Z.leb_le in H0, H1. lia.
Qed.

(** ** Floating point *)

Lemma trunc_comp q r : (q == r)%Q -> trunc q = trunc r.
Proof.
  intros H. unfold trunc.
  assert (Hb : Qle_bool 0 q = Qle_bool 0 r).
  { destruct (Qle_bool 0 q) eqn:Hq; destruct (Qle_bool 0 r) eqn:Hr; try reflexivity.
    - apply Qle_bool_iff in Hq. rewrite H in Hq. apply Qle_bool_iff in Hq. congruence.
    - apply Qle_bool_iff in Hr. rewrite <- H in Hr. apply Qle_bool_iff in Hr. congruence. }
  rewrite Hb. destruct (Qle_bool 0 r); now rewrite H.
Qed.

Lemma trunc_inject_Z n : trunc (inject_Z n) = n.
Proof. unfold trunc. destruct (Qle_bool 0 (inject_Z n)); [apply Qfloor_Z | apply Qceiling_Z]. Qed.

Lemma trunc_integer q n : (q == inject_Z n)%Q -> trunc q = n.
Proof. intros H. rewrite (trunc_comp _ _ H). apply trunc_inject_Z. Qed.

Lemma double_to_u8_integer p q n :
  (q == inject_Z n)%Q -> 0 <= n <= 255 -> double_to_u8 p q = n.
Proof.
  intros Hq Hn. unfold double_to_u8. rewrite (trunc_integer _ _ Hq).
  now apply u8_of_integer_part_small.
Qed.

(** [trunc_sqrt] is the integer part of the square root. *)
Lemma trunc_sqrt_spec q :
  (0 <= q)%Q ->
  (inject_Z (trunc_sqrt q * trunc_sqrt q) <= q)%Q
  /\ (q < inject_Z ((trunc_sqrt q + 1) * (trunc_sqrt q + 1)))%Q.
Proof.
  intros Hq. unfold trunc_sqrt.
  assert (H0 : 0 <= Qfloor q).
  { change 0 with (Qfloor 0). now apply Qfloor_resp_le. }
  destruct (Z.sqrt_spec (Qfloor q) H0) as [Hlo Hhi].
  split.
  - apply Qle_trans with (inject_Z (Qfloor q)); [| apply Qfloor_le].
    rewrite <- Zle_Qle. exact Hlo.
  - apply Qlt_le_trans with (inject_Z (Qfloor q + 1)); [apply Qlt_floor |].
    rewrite <- Zle_Qle. unfold Z.succ in Hhi. lia.
Qed.

(** [half_diff_sqrt a d] is the integer part of [(a - sqrt d) / 2]: with
    [a = n/m], it is the largest [s] with [m * sqrt d <= n - 2 m s], stated
    on the squares. *)
Lemma half_diff_sqrt_spec (a : Q) (d : Z) :
  let n := Qnum a in
  let m := Zpos (Qden a) in
  0 < d -> m * m * d <= n * n -> 0 <= n ->
  let s := half_diff_sqrt a d in
  0 <= s /\ 2 * m * s <= n
  /\ m * m * d <= (n - 2 * m * s) * (n - 2 * m * s)
  /\ (n - 2 * m * (s + 1) < 0
      \/ (n - 2 * m * (s + 1)) * (n - 2 * m * (s + 1)) < m * m * d).
Proof.
  intros n m Hd Hdn Hn. unfold half_diff_sqrt. fold n m.
  assert (Hm : 0 < m) by (subst m; lia).
  assert (Hmd : 0 < m * m * d) by nia.
  destruct (Z.sqrt_up_spec (m * m * d) Hmd) as [Hlo Hhi].
  pose proof (Z.sqrt_up_nonneg (m * m * d)) as Hr.
  set (r := Z.sqrt_up (m * m * d)) in *.
  set (e := m * m * d) in *.
  unfold Z.pred, Z.succ in *.
  assert (Hrn : r <= n) by nia.
  pose proof (Z.div_mod (n - r) (2 * m) ltac:(lia)) as Hdm.
  pose proof (Z.mod_pos_bound (n - r) (2 * m) ltac:(lia)) as Hmb.
  set (s := (n - r) / (2 * m)) in *.
  set (w := (n - r) mod (2 * m)) in *.
  assert (Hs : 0 <= s) by (apply Z.div_pos; lia).
  assert (E : n - 2 * m * s = r + w) by lia.
  cbv zeta. split; [exact Hs |]. split; [lia |]. split.
  - rewrite E. nia.
  - destruct (Z_lt_ge_dec (n - 2 * m * (s + 1)) 0) as [Hneg | Hpos]; [now left | right].
    replace (n - 2 * m * (s + 1)) with (r + w - 2 * m) in * by lia.
    assert (r + w - 2 * m <= r - 1) by lia. nia.
Qed.

(** X1.  The peak speed of a feasible plan is the integer part of
    [(480 - sqrt delta) / 2]. *)
Lemma SPEED_of_spec p dlt :
  0 < dlt <= 230400 ->
  let s := SPEED_of p dlt in
  0 <= s <= 240 /\ dlt <= (480 - 2 * s) * (480 - 2 * s)
  /\ (480 - 2 * (s + 1)) * (480 - 2 * (s + 1)) < dlt.
Proof.
  intros Hd. unfold SPEED_of.
  assert (E : (dlt <? 0) = false) by (apply Z.ltb_ge; lia). rewrite E.
  pose proof (half_diff_sqrt_spec (inject_Z (int_mul TF ACC) / 1000)%Q dlt) as H.
  change (Qnum (inject_Z (int_mul TF ACC) / 1000)%Q) with 480000 in H.
  change (Zpos (Qden (inject_Z (int_mul TF ACC) / 1000)%Q)) with 1000 in H.
  cbv zeta in H. specialize (H ltac:(lia) ltac:(lia) ltac:(lia)).
  set (s := half_diff_sqrt _ _) in *.
  destruct H as (H0 & H1 & H2 & H3).
  rewrite to_int_small by lia.
  split; [lia |]. split; [nia |].
  destruct H3 as [H3 | H3]; nia.
Qed.

(** ** The planner *)

Lemma forallb_upto (n : nat) (f : Z -> bool) :
  forallb f (upto n) = true -> forall k, 0 <= k < Z.of_nat n -> f k = true.
Proof.
  intros H k Hk. rewrite forallb_forall in H. apply H.
  unfold upto. apply in_map_iff. exists (Z.to_nat k). split; [lia |].
  apply in_seq. lia.
Qed.

(** The distance is the absolute difference of the two bytes, on every
    platform. *)
Lemma DISTANCE_of_abs p a0 atf :
  0 <= a0 <= 255 -> 0 <= atf <= 255 -> DISTANCE_of p a0 atf = Z.abs (atf - a0).
Proof.
  intros H0 Hf. unfold DISTANCE_of, trunc_sqrt, pow2.
  assert (Hfl : Qfloor (inject_Z (atf - a0) * inject_Z (atf - a0))
                = Z.abs (atf - a0) * Z.abs (atf - a0)).
  { rewrite <- inject_Z_mult, Qfloor_Z. lia. }
  rewrite Hfl, Z.sqrt_square by lia.
  apply u8_of_integer_part_small. lia.
Qed.

Lemma plan_check_all p :
  forallb
    (fun D =>
       plan_check_values D (delta_of D) (SPEED_of p (delta_of D))
         (t1_of p (SPEED_of p (delta_of D)))
         (to_u32 (TF - t1_of p (SPEED_of p (delta_of D)))))
    (upto 256) = true.
Proof. vm_compute. reflexivity. Qed.

Lemma plan_check_values_sound D dlt s t u :
  plan_check_values D dlt s t u = true ->
  dlt = 230400 - 1280 * D
  /\ (0 <= dlt ->
      0 <= s <= 240 /\ 0 <= t <= 750 /\ u = 1500 - t
      /\ (t = 0 -> s = 0 /\ D <= 1)
      /\ (D = 0 -> s = 0 /\ t = 0)
      /\ (2 <= D -> 3 <= t)).
Proof.
  unfold plan_check_values.
  rewrite ?andb_true_iff, ?orb_true_iff, ?andb_true_iff,
    ?Z.leb_le, ?Z.ltb_lt, ?Z.eqb_eq.
  intros [Hd H]. split; [exact Hd |]. intros Hpos.
  destruct H as [H | H]; [lia |].
  intuition lia.
Qed.

Lemma plan_facts p D :
  0 <= D <= 255 ->
  let dlt := delta_of D in
  let s := SPEED_of p dlt in
  let t := t1_of p s in
  dlt = 230400 - 1280 * D
  /\ (0 <= dlt ->
      0 <= s <= 240 /\ 0 <= t <= 750 /\ to_u32 (TF - t) = 1500 - t
      /\ (t = 0 -> s = 0 /\ D <= 1)
      /\ (D = 0 -> s = 0 /\ t = 0)
      /\ (2 <= D -> 3 <= t)).
Proof.
  intros HD. cbv zeta.
  apply plan_check_values_sound.
  exact (forallb_upto 256 _ (plan_check_all p) D ltac:(lia)).
Qed.

(** ** The sampler at the two ends of a move *)

Lemma accel_phase_start dyn : (accel_phase dyn 0 == inject_Z (angle_t0 dyn))%Q.
Proof. unfold accel_phase, pow2, ACC. destruct (forward dyn); field. Qed.

Lemma decel_phase_end dyn : (decel_phase dyn TF == inject_Z (angle_tf dyn))%Q.
Proof.
  unfold decel_phase. change (to_u32 (TF - TF)) with 0.
  unfold pow2, ACC. destruct (forward dyn); field.
Qed.

Lemma compute_angle_start p dyn :
  0 <= t1 dyn -> 0 <= angle_t0 dyn <= 255 -> compute_angle p dyn 0 = angle_t0 dyn.
Proof.
  intros Ht Ha. unfold compute_angle.
  apply Z.leb_le in Ht. rewrite Ht.
  apply double_to_u8_integer; [apply accel_phase_start | exact Ha].
Qed.

Lemma compute_angle_end p dyn :
  t1 dyn <= t2 dyn -> t2 dyn < TF -> 0 <= angle_tf dyn <= 255 ->
  compute_angle p dyn TF = angle_tf dyn.
Proof.
  intros H1 H2 Ha. unfold compute_angle.
  assert (E1 : (TF <=? t1 dyn) = false) by (apply Z.leb_gt; lia).
  assert (E2 : (TF <=? t2 dyn) = false) by (apply Z.leb_gt; lia).
  assert (E3 : (t2 dyn <? TF) = true) by (apply Z.ltb_lt; lia).
  rewrite E1, E2, E3, andb_false_r, Z.leb_refl. cbn [andb].
  apply double_to_u8_integer; [apply decel_phase_end | exact Ha].
Qed.

(** A profile whose three stored angles coincide and whose cruise phase
    spans the whole move is sampled at that angle up to [TF]. *)
Lemma compute_angle_still p dyn t :
  t1 dyn = 0 -> t2 dyn = TF ->
  angle_t1 dyn = angle_t0 dyn -> angle_t2 dyn = angle_t0 dyn ->
  0 <= angle_t0 dyn <= 255 ->
  0 <= t <= TF -> compute_angle p dyn t = angle_t0 dyn.
Proof.
  intros H1 H2 Ha1 Ha2 Ha Ht.
  destruct (Z.eq_dec t 0) as [-> | Hnz].
  { apply compute_angle_start; [lia | exact Ha]. }
  unfold compute_angle. rewrite H1, H2.
  assert (E1 : (t <=? 0) = false) by (apply Z.leb_gt; lia).
  assert (E2 : (0 <? t) = true) by (apply Z.ltb_lt; lia).
  assert (E3 : (t <=? TF) = true) by (apply Z.leb_le; lia).
  rewrite E1, E2, E3. cbn [andb].
  unfold cruise_phase. rewrite H1, H2, Ha1, Ha2, Z.sub_diag.
  change (to_u32 0) with 0. unfold u32_mul. rewrite Z.mul_0_l, Z.mul_0_r.
  change (to_u32 0) with 0. change (to_u32 (TF - 0)) with 1500.
  unfold u32_div. change (0 / 1500) with 0. rewrite Z.sub_0_r, Z.add_0_l.
  rewrite (to_u32_small (angle_t0 dyn)) by lia.
  rewrite (to_int_small (angle_t0 dyn)) by lia.
  rewrite (to_u32_small (angle_t0 dyn)) by lia.
  apply to_u8_small. exact Ha.
Qed.

(** The fields of a plan, one equation each. *)
Lemma compute_dynamics_targets p dyn a0 :
  angle_t0 (compute_dynamics p dyn a0) = a0
  /\ angle_tf (compute_dynamics p dyn a0) = angle_tf dyn
  /\ forward (compute_dynamics p dyn a0) = (a0 <? angle_tf dyn)
  /\ delta (compute_dynamics p dyn a0) = delta_of (DISTANCE_of p a0 (angle_tf dyn)).
Proof. repeat split. Qed.

Lemma compute_dynamics_t1 p dyn a0 :
  t1 (compute_dynamics p dyn a0)
  = t1_of p (SPEED_of p (delta (compute_dynamics p dyn a0))).
Proof. cbv beta iota zeta delta [compute_dynamics t1 delta]. reflexivity. Qed.

Lemma compute_dynamics_t2 p dyn a0 :
  t2 (compute_dynamics p dyn a0) = to_u32 (TF - t1 (compute_dynamics p dyn a0)).
Proof. cbv beta iota zeta delta [compute_dynamics t1 t2]. reflexivity. Qed.

Lemma compute_dynamics_angle_t1 p dyn a0 :
  let d := compute_dynamics p dyn a0 in
  let SIGN := int_div p (angle_tf dyn - a0) (DISTANCE_of p a0 (angle_tf dyn)) in
  angle_t1 d
  = double_to_u8 p
      (inject_Z a0 + inject_Z (int_mul SIGN ACC) * pow2 (inject_Z (t1 d) / 1000) / 2)%Q.
Proof. cbv beta iota zeta delta [compute_dynamics t1 angle_t1]. reflexivity. Qed.

Lemma compute_dynamics_angle_t2 p dyn a0 :
  let d := compute_dynamics p dyn a0 in
  let SIGN := int_div p (angle_tf dyn - a0) (DISTANCE_of p a0 (angle_tf dyn)) in
  angle_t2 d
  = double_to_u8 p
      (inject_Z (angle_t1 d)
       + inject_Z (u32_mul (to_u32 (int_mul SIGN (SPEED_of p (delta d))))
                           (to_u32 (t2 d - t1 d))) / 1000)%Q.
Proof.
  cbv beta iota zeta delta [compute_dynamics t1 t2 angle_t1 angle_t2 delta].
  reflexivity.
Qed.

(** A plan with zero peak speed and [t1 = 0] stores the current angle in
    [angle_t1] and [angle_t2], whatever the sign comes out as. *)
Lemma compute_dynamics_still p dyn a0 :
  0 <= a0 <= 255 ->
  let d := compute_dynamics p dyn a0 in
  SPEED_of p (delta d) = 0 -> t1 d = 0 ->
  angle_t1 d = a0 /\ angle_t2 d = a0.
Proof.
  intros Ha d Hs Ht.
  assert (E1 : angle_t1 d = a0).
  { subst d. rewrite compute_dynamics_angle_t1. cbv zeta. rewrite Ht.
    apply double_to_u8_integer; [unfold pow2; field | exact Ha]. }
  split; [exact E1 |].
  pose proof (compute_dynamics_angle_t2 p dyn a0) as E2. cbv zeta in E2.
  fold d in E2. rewrite E2, E1, Hs.
  unfold int_mul, u32_mul. rewrite Z.mul_0_r.
  replace (to_u32 (to_int 0)) with 0 by reflexivity. rewrite Z.mul_0_l.
  replace (to_u32 0) with 0 by reflexivity.
  apply double_to_u8_integer; [field | exact Ha].
Qed.

(** What holds of the times of a feasible plan. *)
Lemma compute_dynamics_times p dyn a0 :
  0 <= a0 <= 255 -> 0 <= angle_tf dyn <= 255 ->
  let d := compute_dynamics p dyn a0 in
  0 <= delta d ->
  delta d = 230400 - 1280 * Z.abs (angle_tf dyn - a0)
  /\ 0 <= SPEED_of p (delta d) <= 240
  /\ 0 <= t1 d <= 750 /\ t2 d = TF - t1 d
  /\ (t1 d = 0 -> SPEED_of p (delta d) = 0 /\ Z.abs (angle_tf dyn - a0) <= 1)
  /\ (angle_tf dyn = a0 -> SPEED_of p (delta d) = 0 /\ t1 d = 0)
  /\ (2 <= Z.abs (angle_tf dyn - a0) -> 3 <= t1 d).
Proof.
  intros Ha Hf d Hd.
  assert (Ed : delta d = delta_of (Z.abs (angle_tf dyn - a0))).
  { subst d. destruct (compute_dynamics_targets p dyn a0) as (_ & _ & _ & E).
    rewrite E. now rewrite DISTANCE_of_abs. }
  assert (E1 : t1 d = t1_of p (SPEED_of p (delta d)))
    by apply compute_dynamics_t1.
  assert (E2 : t2 d = to_u32 (TF - t1 d)) by apply compute_dynamics_t2.
  destruct (plan_facts p (Z.abs (angle_tf dyn - a0)) ltac:(lia)) as [E H].
  cbv zeta in H. rewrite <- Ed in E, H. rewrite <- E1 in H.
  specialize (H Hd). rewrite E2.
  clearbody d. unfold TF in *.
  destruct H as (H1 & H2 & H3 & H4 & H5 & H6).
  repeat split; try lia; intros Hx;
    try (apply H4; assumption); try (apply H5; lia); apply H6; lia.
Qed.

(** ** Endpoints of a planned move *)

(** C4.  For a current and a target angle in [0, 180] whose plan has a
    discriminant that is not negative, the sampler returns the current
    angle at elapsed time 0 and, at elapsed time [TF], an angle within one
    degree of the target. *)
Theorem sample_endpoints p dyn current target :
  0 <= current <= 180 -> 0 <= target <= 180 ->
  let d := compute_dynamics p (set_angle_tf dyn target) current in
  0 <= delta d ->
  compute_angle p d 0 = current
  /\ Z.abs (compute_angle p d TF - target) <= 1.
Proof.
  intros Hc Ht d Hd.
  assert (Hf : angle_tf (set_angle_tf dyn target) = target) by reflexivity.
  destruct (compute_dynamics_times p (set_angle_tf dyn target) current
              ltac:(lia) ltac:(rewrite Hf; lia) Hd)
    as (_ & Hs & H1 & H2 & Hz & _).
  fold d in Hs, H1, H2, Hz. rewrite Hf in Hz.
  destruct (compute_dynamics_targets p (set_angle_tf dyn target) current)
    as (E0 & Ef & _ & _).
  fold d in E0, Ef. rewrite Hf in Ef.
  split.
  - rewrite compute_angle_start; [exact E0 | lia | rewrite E0; lia].
  - destruct (Z.eq_dec (t1 d) 0) as [Hz1 | Hnz].
    + destruct (Hz Hz1) as [Hs0 Hclose].
      destruct (compute_dynamics_still p (set_angle_tf dyn target) current
                  ltac:(lia) Hs0 Hz1) as [Ea1 Ea2].
      fold d in Ea1, Ea2.
      rewrite (compute_angle_still p d TF); rewrite ?E0; unfold TF in *; lia.
    + rewrite (compute_angle_end p d); rewrite ?Ef; unfold TF in *; lia.
Qed.

Lemma sample_endpoints_witness :
  compute_angle saturating
    (compute_dynamics saturating (set_angle_tf zero_dynamics 180) 90) 0 = 90
  /\ Z.abs (compute_angle saturating
              (compute_dynamics saturating (set_angle_tf zero_dynamics 180) 90) TF
            - 180) <= 1.
Proof.
  apply (sample_endpoints saturating zero_dynamics 90 180);
    [lia | lia | vm_compute; discriminate].
Defined.

(** ** A move of length zero *)

Lemma zero_length_move p dyn a :
  0 <= a <= 255 ->
  let d := compute_dynamics p (set_angle_tf dyn a) a in
  delta d = 230400
  /\ SPEED_of p (delta d) = 0
  /\ t1 d = 0
  /\ forall t, 0 <= t -> compute_angle p d t = a.
Proof.
  intros Ha d.
  assert (Hf : angle_tf (set_angle_tf dyn a) = a) by reflexivity.
  destruct (compute_dynamics_targets p (set_angle_tf dyn a) a) as (E0 & Ef & _ & Ed).
  fold d in E0, Ef, Ed. rewrite Hf in Ef, Ed.
  rewrite DISTANCE_of_abs, Z.sub_diag in Ed by lia.
  change (delta_of (Z.abs 0)) with 230400 in Ed.
  assert (Hd : 0 <= delta d) by (rewrite Ed; lia).
  destruct (compute_dynamics_times p (set_angle_tf dyn a) a
              ltac:(lia) ltac:(rewrite Hf; lia) Hd)
    as (_ & _ & _ & H2 & _ & Hz & _).
  fold d in H2, Hz. destruct (Hz Hf) as [Hs H1].
  destruct (compute_dynamics_still p (set_angle_tf dyn a) a Ha Hs H1) as [Ea1 Ea2].
  fold d in Ea1, Ea2.
  repeat split; try assumption.
  intros t Ht. destruct (Z_le_gt_dec t TF) as [Hle | Hgt].
  - rewrite (compute_angle_still p d t); rewrite ?E0; unfold TF in *; lia.
  - unfold compute_angle. rewrite H1, H2, H1.
    assert (X1 : (t <=? 0) = false) by (apply Z.leb_gt; unfold TF in *; lia).
    assert (X2 : (t <=? TF - 0) = false) by (apply Z.leb_gt; lia).
    assert (X3 : (t <=? TF) = false) by (apply Z.leb_gt; lia).
    rewrite X1, X2, X3, !andb_false_r. exact Ef.
Qed.

(** ** The command interpreter *)

Arguments compute_dynamics : simpl never.
Arguments compute_angle : simpl never.
Arguments to_u8 : simpl never.
Arguments to_int : simpl never.
Arguments to_u32 : simpl never.
Arguments Arduino.map : simpl never.
Arguments Arduino.toInt : simpl never.
Arguments Arduino.char_at : simpl never.
Arguments chars3 : simpl never.

Lemma loop_input_value p fuel clk input st :
  String.eqb input ("motor" ++ LF) = false ->
  String.eqb input ("reset" ++ LF) = false ->
  loop_input p fuel clk input st
  = Some (value_command p input
            (set_five_axis_running false (set_single_motor_running false st))).
Proof. intros H1 H2. unfold loop_input. now rewrite H1, H2. Qed.

Lemma value_command_single_motor p input st a :
  single_motor_mode st = true ->
  Arduino.char_at input 1 = char_of a ->
  let percent := to_int (Arduino.toInt (chars3 input 3)) in
  let st' := value_command p input st in
  dynamics a st'
  = compute_dynamics p
      (set_angle_tf (dynamics a st) (to_u8 (mapped_angle a percent)))
      (to_u8 (Servo_read (servo_of a) st))
  /\ single_motor_running st' = true
  /\ motor_id st' = char_of a
  /\ (forall s, Servo_read s st' = Servo_read s st)
  /\ servo_writes st' = servo_writes st.
Proof.
  intros Hm Hc.
  destruct st as [m1 m2 m2s m3 m4 m5 d1 d2 d3 d4 d5 cp id sm cm sr fr out ws].
  cbn in Hm. subst sm.
  unfold value_command. cbn [single_motor_mode].
  unfold single_motor_command.
  cbn [Serial_print set_motor_id motor_id]. rewrite Hc.
  destruct (is_delta_positive _) eqn:E; clear E;
  destruct a; cbn; repeat split; intros []; reflexivity.
Qed.

(** Clearing the run flags touches nothing else. *)
Lemma clear_run_flags_frame st :
  let st0 := set_five_axis_running false (set_single_motor_running false st) in
  single_motor_mode st0 = single_motor_mode st
  /\ cartesian_mode st0 = cartesian_mode st
  /\ cartesian_pos st0 = cartesian_pos st
  /\ (forall a, dynamics a st0 = dynamics a st)
  /\ (forall s, Servo_read s st0 = Servo_read s st)
  /\ servo_writes st0 = servo_writes st
  /\ serial_out st0 = serial_out st.
Proof.
  destruct st as [m1 m2 m2s m3 m4 m5 d1 d2 d3 d4 d5 cp id sm cm sr fr out ws].
  cbn. repeat split; intros []; reflexivity.
Qed.

Lemma parse_check_values_sound c c' v n b1 b2 :
  parse_check_values c c' v n b1 b2 = true ->
  c = c' /\ v = n /\ b1 = false /\ b2 = false.
Proof.
  unfold parse_check_values. rewrite !andb_true_iff, !negb_true_iff.
  rewrite Ascii.eqb_eq, Z.eqb_eq. tauto.
Qed.

Lemma motor_command_check a :
  forallb
    (fun n =>
       parse_check_values (Arduino.char_at (motor_command a n) 1) (char_of a)
         (to_int (Arduino.toInt (chars3 (motor_command a n) 3))) n
         (String.eqb (motor_command a n) ("motor" ++ LF))
         (String.eqb (motor_command a n) ("reset" ++ LF)))
    (upto 1000) = true.
Proof. destruct a; vm_compute; reflexivity. Qed.

Lemma motor_command_parse a n :
  0 <= n <= 999 ->
  Arduino.char_at (motor_command a n) 1 = char_of a
  /\ to_int (Arduino.toInt (chars3 (motor_command a n) 3)) = n
  /\ String.eqb (motor_command a n) ("motor" ++ LF) = false
  /\ String.eqb (motor_command a n) ("reset" ++ LF) = false.
Proof.
  intros Hn. apply parse_check_values_sound.
  exact (forallb_upto 1000 _ (motor_command_check a) n ltac:(lia)).
Qed.

(** What a line [M<id>.<ppp>] does in single-motor mode. *)
Lemma loop_input_motor_command p fuel clk st a n :
  single_motor_mode st = true -> 0 <= n <= 999 ->
  exists st',
    loop_input p fuel clk (motor_command a n) st = Some st'
    /\ dynamics a st'
       = compute_dynamics p
           (set_angle_tf (dynamics a st) (to_u8 (mapped_angle a n)))
           (to_u8 (Servo_read (servo_of a) st))
    /\ single_motor_running st' = true
    /\ motor_id st' = char_of a
    /\ (forall s, Servo_read s st' = Servo_read s st)
    /\ servo_writes st' = servo_writes st.
Proof.
  intros Hm Hn.
  destruct (motor_command_parse a n Hn) as (Hc & Hp & E1 & E2).
  destruct (clear_run_flags_frame st) as (F1 & _ & _ & F2 & F3 & F4 & _).
  cbv zeta in F1, F2, F3, F4.
  eexists. split; [apply (loop_input_value _ _ _ _ _ E1 E2) |].
  destruct (value_command_single_motor p (motor_command a n) _ a
              (eq_trans F1 Hm) Hc) as (G1 & G2 & G3 & G4 & G5).
  cbv zeta in G1, G2, G3, G4, G5. rewrite Hp in G1.
  rewrite G1, G2, G3, G5, F2, F3, F4.
  repeat split. intros s. now rewrite G4, F3.
Qed.

(** C5.  Planning a move whose target is the current angle [a] gives a
    peak speed of 0 and [t1 = 0], and the sampler returns [a] at every
    elapsed time; the line [M1.050] received in single-motor mode while
    servo 1 reads 90 stores the target 90, at distance 0, with the
    discriminant 230400, and the sampler of axis 1 returns 90 at every
    elapsed time.  The sign of such a move is a division by zero; the
    statement holds for whatever the platform leaves as the quotient. *)
Theorem still_move_stays_put p dyn a fuel clk st :
  0 <= a <= 255 ->
  single_motor_mode st = true -> M1 st = 90 ->
  (let d := compute_dynamics p (set_angle_tf dyn a) a in
   SPEED_of p (delta d) = 0 /\ t1 d = 0
   /\ forall t, 0 <= t -> compute_angle p d t = a)
  /\ exists st',
       loop_input p fuel clk ("M1.050" ++ LF) st = Some st'
       /\ angle_tf (dynamics_M1 st') = 90
       /\ DISTANCE_of p (angle_t0 (dynamics_M1 st')) (angle_tf (dynamics_M1 st')) = 0
       /\ delta (dynamics_M1 st') = 230400
       /\ forall t, 0 <= t -> compute_angle p (dynamics_M1 st') t = 90.
Proof.
  intros Ha Hm H90. split.
  - destruct (zero_length_move p dyn a Ha) as (_ & Hs & H1 & Hall).
    cbv zeta. auto.
  - change ("M1.050" ++ LF)%string with (motor_command A1 50).
    destruct (loop_input_motor_command p fuel clk st A1 50 Hm ltac:(lia))
      as (st' & Hrun & Hd & _).
    exists st'. split; [exact Hrun |].
    change (dynamics A1 st') with (dynamics_M1 st') in Hd.
    change (Servo_read (servo_of A1) st) with (M1 st) in Hd.
    rewrite H90 in Hd.
    replace (to_u8 (mapped_angle A1 50)) with 90 in Hd by (vm_compute; reflexivity).
    replace (to_u8 90) with 90 in Hd by (vm_compute; reflexivity).
    rewrite Hd.
    destruct (zero_length_move p (dynamics A1 st) 90 ltac:(lia)) as (Hdl & _ & _ & Hall).
    destruct (compute_dynamics_targets p (set_angle_tf (dynamics A1 st) 90) 90)
      as (E0 & Ef & _ & _).
    rewrite E0, Ef. cbn [angle_tf set_angle_tf].
    rewrite DISTANCE_of_abs by lia.
    repeat split; auto.
Qed.

Lemma still_move_stays_put_witness :
  (let d := compute_dynamics saturating (set_angle_tf zero_dynamics 90) 90 in
   SPEED_of saturating (delta d) = 0 /\ t1 d = 0
   /\ forall t, 0 <= t -> compute_angle saturating d t = 90)
  /\ exists st',
       loop_input saturating 1 (fun _ => 0) ("M1.050" ++ LF) single_motor_state = Some st'
       /\ angle_tf (dynamics_M1 st') = 90
       /\ DISTANCE_of saturating (angle_t0 (dynamics_M1 st')) (angle_tf (dynamics_M1 st')) = 0
       /\ delta (dynamics_M1 st') = 230400
       /\ forall t, 0 <= t -> compute_angle saturating (dynamics_M1 st') t = 90.
Proof.
  apply (still_move_stays_put saturating zero_dynamics 90 1%nat (fun _ => 0)
           single_motor_state); [lia | reflexivity | reflexivity].
Defined.

(** ** The percentage of a single-motor command *)

Lemma mapped_angle_check a :
  forallb (fun n => to_u8 (mapped_angle a n) =? linear_target a n) (upto 101) = true.
Proof. destruct a; vm_compute; reflexivity. Qed.

Lemma mapped_angle_linear a n :
  0 <= n <= 100 -> to_u8 (mapped_angle a n) = linear_target a n.
Proof.
  intros Hn. apply Z.eqb_eq.
  exact (forallb_upto 101 _ (mapped_angle_check a) n ltac:(lia)).
Qed.

Lemma linear_target_range a n : 0 <= n <= 100 -> 0 <= linear_target a n <= range_of a.
Proof.
  intros Hn. rewrite <- mapped_angle_linear by exact Hn.
  assert (H : forallb (fun n => (0 <=? to_u8 (mapped_angle a n))
                        && (to_u8 (mapped_angle a n) <=? range_of a)) (upto 101) = true)
    by (destruct a; vm_compute; reflexivity).
  pose proof (forallb_upto 101 _ H n ltac:(lia)) as Hb. cbv beta in Hb.
  apply andb_true_iff in Hb. destruct Hb as [H1 H2].
  apply Z.leb_le in H1, H2. lia.
Qed.

(** C8.  In single-motor mode the line [M<id>.<ppp>] with [id] in 1..5
    and a percentage [ppp] in [0, 100] stores as target of that axis the
    linear map of the percentage, in whole degrees inside [0, Range]:
    0% gives 0 and 100% gives Range on axes 1 and 5; 0% gives Range and
    100% gives 0 on axes 2, 3 and 4. *)
Theorem single_motor_percentage_map p fuel clk st a n :
  single_motor_mode st = true -> 0 <= n <= 100 ->
  exists st',
    loop_input p fuel clk (motor_command a n) st = Some st'
    /\ angle_tf (dynamics a st') = linear_target a n
    /\ 0 <= angle_tf (dynamics a st') <= range_of a
    /\ linear_target a 0 = match a with A1 | A5 => 0 | _ => range_of a end
    /\ linear_target a 100 = match a with A1 | A5 => range_of a | _ => 0 end.
Proof.
  intros Hm Hn.
  destruct (loop_input_motor_command p fuel clk st a n Hm ltac:(lia))
    as (st' & Hrun & Hd & _).
  exists st'. split; [exact Hrun |].
  rewrite Hd.
  destruct (compute_dynamics_targets p
              (set_angle_tf (dynamics a st) (to_u8 (mapped_angle a n)))
              (to_u8 (Servo_read (servo_of a) st))) as (_ & Ef & _ & _).
  rewrite Ef. cbn [angle_tf set_angle_tf].
  rewrite mapped_angle_linear by exact Hn.
  split; [reflexivity |]. split; [now apply linear_target_range |].
  split; destruct a; reflexivity.
Qed.

Lemma single_motor_percentage_map_witness :
  exists st',
    loop_input saturating 1 (fun _ => 0) (motor_command A3 100) single_motor_state = Some st'
    /\ angle_tf (dynamics A3 st') = linear_target A3 100
    /\ 0 <= angle_tf (dynamics A3 st') <= range_of A3
    /\ linear_target A3 0 = range_of A3
    /\ linear_target A3 100 = 0.
Proof.
  apply (single_motor_percentage_map saturating 1%nat (fun _ => 0)
           single_motor_state A3 100); [reflexivity | lia].
Defined.

(** C10.  The single-motor command does not validate the percentage: the
    line [M1.130] maps to 234 degrees and stores 234, above [RANGE_M1];
    the line [M1.150] maps to 270 degrees and stores 270 mod 256 = 14.
    Both are planned and set [single_motor_running]. *)
Theorem percentage_not_validated p fuel clk st :
  single_motor_mode st = true ->
  (exists st',
     loop_input p fuel clk ("M1.130" ++ LF) st = Some st'
     /\ Arduino.map 130 0 100 0 RANGE_M1 = 234
     /\ angle_tf (dynamics_M1 st') = 234
     /\ RANGE_M1 < angle_tf (dynamics_M1 st')
     /\ single_motor_running st' = true)
  /\ (exists st',
        loop_input p fuel clk ("M1.150" ++ LF) st = Some st'
        /\ Arduino.map 150 0 100 0 RANGE_M1 = 270
        /\ angle_tf (dynamics_M1 st') = 270 mod 256
        /\ single_motor_running st' = true).
Proof.
  intros Hm. split.
  - change ("M1.130" ++ LF)%string with (motor_command A1 130).
    destruct (loop_input_motor_command p fuel clk st A1 130 Hm ltac:(lia))
      as (st' & Hrun & Hd & Hr & _).
    exists st'. split; [exact Hrun |].
    change (dynamics A1 st') with (dynamics_M1 st') in Hd.
    rewrite Hd.
    destruct (compute_dynamics_targets p
                (set_angle_tf (dynamics A1 st) (to_u8 (mapped_angle A1 130)))
                (to_u8 (Servo_read (servo_of A1) st))) as (_ & Ef & _ & _).
    rewrite Ef. cbn [angle_tf set_angle_tf].
    replace (to_u8 (mapped_angle A1 130)) with 234 by (vm_compute; reflexivity).
    repeat split; try assumption; vm_compute; reflexivity.
  - change ("M1.150" ++ LF)%string with (motor_command A1 150).
    destruct (loop_input_motor_command p fuel clk st A1 150 Hm ltac:(lia))
      as (st' & Hrun & Hd & Hr & _).
    exists st'. split; [exact Hrun |].
    change (dynamics A1 st') with (dynamics_M1 st') in Hd.
    rewrite Hd.
    destruct (compute_dynamics_targets p
                (set_angle_tf (dynamics A1 st) (to_u8 (mapped_angle A1 150)))
                (to_u8 (Servo_read (servo_of A1) st))) as (_ & Ef & _ & _).
    rewrite Ef. cbn [angle_tf set_angle_tf].
    replace (to_u8 (mapped_angle A1 150)) with 14 by (vm_compute; reflexivity).
    repeat split; try assumption; vm_compute; reflexivity.
Qed.

Lemma percentage_not_validated_witness :
  (exists st',
     loop_input saturating 1 (fun _ => 0) ("M1.130" ++ LF) single_motor_state = Some st'
     /\ Arduino.map 130 0 100 0 RANGE_M1 = 234
     /\ angle_tf (dynamics_M1 st') = 234
     /\ RANGE_M1 < angle_tf (dynamics_M1 st')
     /\ single_motor_running st' = true)
  /\ (exists st',
        loop_input saturating 1 (fun _ => 0) ("M1.150" ++ LF) single_motor_state = Some st'
        /\ Arduino.map 150 0 100 0 RANGE_M1 = 270
        /\ angle_tf (dynamics_M1 st') = 270 mod 256
        /\ single_motor_running st' = true).
Proof.
  apply (percentage_not_validated saturating 1%nat (fun _ => 0) single_motor_state).
  reflexivity.
Defined.

(** ** The feasibility gate of the scheduler *)

Lemma is_delta_positive_false st a :
  delta (dynamics a st) < 0 -> is_delta_positive st = false.
Proof.
  intros H. unfold is_delta_positive.
  destruct a; cbn [dynamics] in H; apply Z.leb_gt in H; rewrite H;
    rewrite ?andb_false_r; reflexivity.
Qed.

(** C1.  In an iteration of the scheduler loop, if the stored profile of
    any of the five axes has a negative [delta], the iteration writes to
    no servo: the state is unchanged, the record of writes is the same and
    every servo reads what it read before.  Nothing is assumed of the run
    flags, of [motor_id] or of the other four profiles. *)
Theorem gate_blocks_every_write p t st :
  (exists a, delta (dynamics a st) < 0) ->
  scheduler_iteration p t st = st
  /\ servo_writes (scheduler_iteration p t st) = servo_writes st
  /\ forall s, Servo_read s (scheduler_iteration p t st) = Servo_read s st.
Proof.
  intros [a Ha]. unfold scheduler_iteration.
  rewrite (is_delta_positive_false st a Ha). repeat split.
Qed.

Lemma gate_blocks_every_write_witness :
  scheduler_iteration saturating 100 gated_state = gated_state
  /\ servo_writes (scheduler_iteration saturating 100 gated_state)
     = servo_writes gated_state
  /\ forall s, Servo_read s (scheduler_iteration saturating 100 gated_state)
               = Servo_read s gated_state.
Proof.
  apply (gate_blocks_every_write saturating 100 gated_state).
  exists A1. vm_compute. reflexivity.
Defined.

(** The gate holds for as long as no line arrives. *)
Lemma scheduler_run_blocked p t0 readings st a :
  delta (dynamics a st) < 0 -> scheduler_run p t0 readings st = st.
Proof.
  intros Ha. induction readings as [| now rest IH]; cbn [scheduler_run].
  - reflexivity.
  - unfold scheduler_iteration. rewrite (is_delta_positive_false st a Ha). exact IH.
Qed.

(** With the gate open and all axes running, an iteration writes the six
    servos. *)
Lemma scheduler_iteration_dispatches p t st :
  is_delta_positive st = true -> single_motor_running st = false ->
  five_axis_running st = true ->
  scheduler_iteration p t st = dispatch_all p t st
  /\ servo_writes (dispatch_all p t st)
     = servo_writes st
       ++ [(SM1, compute_angle p (dynamics_M1 st) t);
           (SM2, compute_angle p (dynamics_M2 st) t);
           (SM2s, compute_angle p (dynamics_M2 st) t);
           (SM3, compute_angle p (dynamics_M3 st) t);
           (SM4, compute_angle p (dynamics_M4 st) t);
           (SM5, compute_angle p (dynamics_M5 st) t)].
Proof.
  intros Hg Hs Hf. unfold scheduler_iteration. rewrite Hg, Hs, Hf.
  split; [reflexivity |].
  destruct st as [m1 m2 m2s m3 m4 m5 d1 d2 d3 d4 d5 cp id sm cm sr fr out ws].
  cbn. rewrite <- !app_assoc. reflexivity.
Qed.

(** ** The times of a plan *)

(** C6, amended.  After a plan whose discriminant is not negative, the
    stored times satisfy [0 <= t1 <= t2 <= TF].  (For a negative
    discriminant the peak speed is the conversion of a NaN to [int], see
    [infeasible_plan_times_counterexample].) *)
Theorem feasible_plan_times p dyn current :
  0 <= current <= 255 -> 0 <= angle_tf dyn <= 255 ->
  let d := compute_dynamics p dyn current in
  0 <= delta d ->
  0 <= t1 d /\ t1 d <= t2 d /\ t2 d <= TF.
Proof.
  intros Hc Hf d Hd.
  destruct (compute_dynamics_times p dyn current Hc Hf Hd)
    as (_ & _ & H1 & H2 & _).
  fold d in H1, H2. unfold TF in *. lia.
Qed.

Lemma feasible_plan_times_witness :
  let d := compute_dynamics wrapping (set_angle_tf zero_dynamics 0) 165 in
  0 <= t1 d /\ t1 d <= t2 d /\ t2 d <= TF.
Proof.
  apply (feasible_plan_times wrapping (set_angle_tf zero_dynamics 0) 165);
    [lia | cbn; lia | vm_compute; discriminate].
Defined.

(** C6 as stated fails where the conversion of a NaN saturates: the plan
    from 0 to 234 degrees has a negative discriminant, [1000 * SPEED]
    wraps to -1000, [t1] is 4294967293 and [t2] is 1503. *)
Lemma infeasible_plan_times_counterexample :
  let d := compute_dynamics wrapping (set_angle_tf zero_dynamics 234) 0 in
  delta d < 0 /\ ~ (t1 d <= t2 d /\ t2 d <= TF).
Proof.
  cbv zeta. split.
  - vm_compute. reflexivity.
  - intros [H _]. vm_compute in H. apply H. reflexivity.
Qed.

(** Where the conversion of a NaN gives 0, the same plan keeps the
    order. *)
Lemma infeasible_plan_times_saturating :
  let d := compute_dynamics saturating (set_angle_tf zero_dynamics 234) 0 in
  delta d < 0 /\ t1 d = 0 /\ t2 d = TF.
Proof. vm_compute. repeat split. Qed.

(** ** Monotonicity of the sampler *)

(** In the last phase of a move toward a smaller angle the sampler
    converts a double above 10^15 to [uint8_t]: [t - TF] is unsigned. *)
Lemma backward_decel_out_of_range dyn t :
  forward dyn = false -> 0 <= angle_tf dyn -> 0 <= t < TF ->
  (inject_Z (10 ^ 15) < decel_phase dyn t)%Q.
Proof.
  intros Hb Hf Ht. unfold decel_phase. rewrite Hb.
  assert (Hu : to_u32 (t - TF) = t - TF + 2 ^ 32).
  { unfold to_u32. symmetry. apply Z.mod_unique with (q := -1); unfold TF in *; lia. }
  rewrite Hu. unfold pow2, ACC, TF in *.
  set (u := t - 1500 + 2 ^ 32) in *.
  assert (Hlo : 4294965796 <= u) by (subst u; lia).
  unfold Qlt, Qplus, Qmult, Qdiv, Qinv, inject_Z. cbn [Qnum Qden].
  cbn -[Z.mul Z.add Z.pow]. clearbody u. nia.
Qed.

(** C7, at the input where the code departs from it: the move of axis 3
    from its initial 165 degrees to 0 (the line [M3.100]).  The plan is
    feasible and the target is below the current angle, yet the sampler
    is not non-increasing: where out-of-range conversions saturate it
    returns 255 at 1000 ms, above the 165 it started from; where they keep
    the low bits it goes from 99 at 969 ms up to 207 at 970 ms. *)
Theorem backward_move_not_monotone :
  let ds := compute_dynamics saturating (set_angle_tf zero_dynamics 0) 165 in
  let dw := compute_dynamics wrapping (set_angle_tf zero_dynamics 0) 165 in
  (0 <= delta ds /\ angle_tf ds <= angle_t0 ds
   /\ compute_angle saturating ds 0 = 165
   /\ compute_angle saturating ds 1000 = 255
   /\ ~ monotone_toward_target saturating ds)
  /\ (0 <= delta dw /\ angle_tf dw <= angle_t0 dw
      /\ compute_angle wrapping dw 969 = 99
      /\ compute_angle wrapping dw 970 = 207
      /\ ~ monotone_toward_target wrapping dw).
Proof.
  cbv zeta. split.
  - split; [vm_compute; discriminate |].
    split; [vm_compute; discriminate |].
    split; [vm_compute; reflexivity |].
    split; [vm_compute; reflexivity |].
    intros [_ H].
    assert (Hle : angle_tf (compute_dynamics saturating (set_angle_tf zero_dynamics 0) 165)
                  <= angle_t0 (compute_dynamics saturating (set_angle_tf zero_dynamics 0) 165))
      by (vm_compute; discriminate).
    specialize (H Hle 0 1000 ltac:(lia) ltac:(unfold TF; lia)).
    destruct H as [_ H]. vm_compute in H. apply H. reflexivity.
  - split; [vm_compute; discriminate |].
    split; [vm_compute; discriminate |].
    split; [vm_compute; reflexivity |].
    split; [vm_compute; reflexivity |].
    intros [_ H].
    assert (Hle : angle_tf (compute_dynamics wrapping (set_angle_tf zero_dynamics 0) 165)
                  <= angle_t0 (compute_dynamics wrapping (set_angle_tf zero_dynamics 0) 165))
      by (vm_compute; discriminate).
    specialize (H Hle 969 970 ltac:(lia) ltac:(unfold TF; lia)).
    destruct H as [_ H]. vm_compute in H. apply H. reflexivity.
Qed.

(** Where out-of-range conversions saturate, every sample of that phase
    is 255. *)
Lemma compute_angle_backward_decel_saturating dyn t :
  forward dyn = false -> 0 <= angle_tf dyn ->
  t1 dyn <= t2 dyn -> t2 dyn < t -> t < TF ->
  0 <= t -> compute_angle saturating dyn t = 255.
Proof.
  intros Hb Hf H12 H2 Ht H0. unfold compute_angle.
  assert (E1 : (t <=? t1 dyn) = false) by (apply Z.leb_gt; lia).
  assert (E2 : (t <=? t2 dyn) = false) by (apply Z.leb_gt; lia).
  assert (E3 : (t2 dyn <? t) = true) by (apply Z.ltb_lt; lia).
  assert (E4 : (t <=? TF) = true) by (apply Z.leb_le; lia).
  rewrite E1, E2, E3, E4, andb_false_r. cbn [andb].
  pose proof (backward_decel_out_of_range dyn t Hb Hf (conj H0 Ht)) as Hq.
  unfold double_to_u8, trunc.
  assert (Hpos : Qle_bool 0 (decel_phase dyn t) = true).
  { apply Qle_bool_iff. apply Qlt_le_weak.
    apply Qle_lt_trans with (inject_Z (10 ^ 15)); [| exact Hq].
    change 0%Q with (inject_Z 0). rewrite <- Zle_Qle. lia. }
  rewrite Hpos.
  assert (Hfl : 10 ^ 15 <= Qfloor (decel_phase dyn t)).
  { rewrite <- (Qfloor_Z (10 ^ 15)). apply Qfloor_resp_le. now apply Qlt_le_weak. }
  unfold u8_of_integer_part.
  assert (E5 : (Qfloor (decel_phase dyn t) <=? 255) = false) by (apply Z.leb_gt; lia).
  assert (E6 : (Qfloor (decel_phase dyn t) <? 0) = false) by (apply Z.ltb_ge; lia).
  rewrite E5, andb_false_r. cbn [saturating oor_to_u8]. rewrite E6. reflexivity.
Qed.

(** X2.  Hence no move toward a smaller angle by two degrees or more is
    sampled monotonically there: one millisecond before [TF] the sample is
    255, above the angle the move started from. *)
Lemma backward_moves_not_monotone_saturating dyn current target :
  0 <= target -> target + 2 <= current -> current <= 180 ->
  let d := compute_dynamics saturating (set_angle_tf dyn target) current in
  0 <= delta d /\ ~ monotone_toward_target saturating d.
Proof.
  intros H0 H2 H180 d.
  assert (Hf : angle_tf (set_angle_tf dyn target) = target) by reflexivity.
  destruct (compute_dynamics_targets saturating (set_angle_tf dyn target) current)
    as (E0 & Ef & Efw & Ed).
  fold d in E0, Ef, Efw, Ed. rewrite Hf in Ef, Efw, Ed.
  rewrite DISTANCE_of_abs in Ed by lia.
  destruct (plan_facts saturating (Z.abs (target - current)) ltac:(lia)) as [Edl _].
  cbv zeta in Edl. rewrite <- Ed in Edl.
  assert (Hd : 0 <= delta d) by lia.
  split; [exact Hd |].
  destruct (compute_dynamics_times saturating (set_angle_tf dyn target) current
              ltac:(lia) ltac:(rewrite Hf; lia) Hd)
    as (_ & _ & H1 & H2' & _ & _ & H3).
  fold d in H1, H2', H3. rewrite Hf in H3. specialize (H3 ltac:(lia)).
  intros [_ Hm].
  specialize (Hm ltac:(lia) 0 (TF - 1) ltac:(unfold TF; lia) ltac:(lia)).
  rewrite (compute_angle_backward_decel_saturating d (TF - 1)) in Hm;
    try (unfold TF in *; lia).
  - rewrite compute_angle_start in Hm; lia.
  - rewrite Efw. apply Z.ltb_ge. lia.
Qed.

(** The mirror move, from 0 to 165 degrees, has no wrap-around: from one
    millisecond to the next the sample does not decrease and stays at or
    below the target, on every platform. *)
Lemma forward_move_monotone_steps p :
  let d := compute_dynamics p (set_angle_tf zero_dynamics 165) 0 in
  forall t, 0 <= t < TF ->
    compute_angle p d t <= compute_angle p d (t + 1) <= 165.
Proof.
  intros d t Ht.
  assert (H : forallb (fun t => (compute_angle p d t <=? compute_angle p d (t + 1))
                                && (compute_angle p d (t + 1) <=? 165))
                (upto 1500) = true) by (vm_compute; reflexivity).
  pose proof (forallb_upto 1500 _ H t ltac:(unfold TF in Ht; lia)) as Hb.
  cbv beta in Hb. apply andb_true_iff in Hb. destruct Hb as [H1 H2].
  apply Z.leb_le in H1, H2. lia.
Qed.

(** ** Validation of a cartesian target *)

(** The solver is all-or-nothing on the bytes it tests: either the five
    targets are the five bytes and nothing is printed, or the five
    profiles are untouched and the report is printed. *)
Lemma get_angles_from_cartesian_atomic p st :
  let st' := get_angles_from_cartesian p st in
  (forall s, Servo_read s st' = Servo_read s st)
  /\ servo_writes st' = servo_writes st
  /\ if accepted p st
     then (forall a, dynamics a st' = set_angle_tf (dynamics a st) (solved_byte p st a))
          /\ serial_out st' = serial_out st
     else (forall a, dynamics a st' = dynamics a st)
          /\ serial_out st' = serial_out st ++ [(unreachable_report ++ CRLF)%string].
Proof.
  unfold accepted, solved_byte, get_angles_from_cartesian.
  destruct st as [m1 m2 m2s m3 m4 m5 d1 d2 d3 d4 d5 cp id sm cm sr fr out ws].
  cbn [cartesian_pos set_cartesian_pos].
  set (j := kinematics p (wrist_pivot p cp)).
  destruct (within_work_envelope _ _ _ _ _).
  - repeat split; try intros []; cbn;
      rewrite ?(to_u8_small (to_u8 _)) by apply to_u8_range; reflexivity.
  - repeat split; try intros []; reflexivity.
Qed.

(** A target the byte test rejects when one of the bytes is above its
    range. *)
Lemma rejected_when_byte_above_range p st a :
  range_of a < solved_byte p st a -> accepted p st = false.
Proof.
  intros H. unfold accepted, within_work_envelope.
  destruct a; cbn [range_of] in H; apply Z.leb_gt in H; rewrite H;
    rewrite ?andb_false_r; reflexivity.
Qed.

(** C2, at the input where the code departs from it.  When the solver
    rounds the five angles to 17, 17, -97, 162 and 130 (the stretched arm:
    the elbow angle is outside [0, RANGE_M3]), the constant [ANGLE_M3] is
    a [byte] and holds 159, the test [ANGLE_M3 >= 0 && ANGLE_M3 <= RANGE_M3]
    passes, the five targets are overwritten and no report is printed.
    What does hold of the solver is [get_angles_from_cartesian_atomic]. *)
Theorem negative_elbow_angle_accepted p st :
  kinematics p (wrist_pivot p (cartesian_pos st)) = stretched_arm ->
  let st' := get_angles_from_cartesian p st in
  ANGLE_M3 (kinematics p (wrist_pivot p (cartesian_pos st))) < 0
  /\ angle_tf (dynamics_M1 st') = 17
  /\ angle_tf (dynamics_M2 st') = 17
  /\ angle_tf (dynamics_M3 st') = 159
  /\ angle_tf (dynamics_M4 st') = 162
  /\ angle_tf (dynamics_M5 st') = 130
  /\ serial_out st' = serial_out st.
Proof.
  intros Hk.
  destruct (get_angles_from_cartesian_atomic p st) as (_ & _ & H).
  cbv zeta in *.
  assert (Hb : forall a, solved_byte p st a
                         = match a with
                           | A1 => 17 | A2 => 17 | A3 => 159 | A4 => 162 | A5 => 130
                           end).
  { intros a. unfold solved_byte. rewrite Hk. destruct a; reflexivity. }
  assert (Ha : accepted p st = true).
  { unfold accepted. rewrite !Hb. reflexivity. }
  rewrite Ha in H. destruct H as [Hd Hs].
  split; [rewrite Hk; reflexivity |].
  pose proof (Hd A1) as H1. pose proof (Hd A2) as H2. pose proof (Hd A3) as H3.
  pose proof (Hd A4) as H4. pose proof (Hd A5) as H5.
  cbn [dynamics] in H1, H2, H3, H4, H5.
  rewrite H1, H2, H3, H4, H5, !Hb. repeat split. exact Hs.
Qed.

Lemma negative_elbow_angle_accepted_witness :
  let st' := get_angles_from_cartesian stretched_platform stretched_state in
  ANGLE_M3 (kinematics stretched_platform
              (wrist_pivot stretched_platform (cartesian_pos stretched_state))) < 0
  /\ angle_tf (dynamics_M1 st') = 17
  /\ angle_tf (dynamics_M2 st') = 17
  /\ angle_tf (dynamics_M3 st') = 159
  /\ angle_tf (dynamics_M4 st') = 162
  /\ angle_tf (dynamics_M5 st') = 130
  /\ serial_out st' = serial_out stretched_state.
Proof.
  apply (negative_elbow_angle_accepted stretched_platform stretched_state).
  reflexivity.
Defined.

(** The same through the interpreter: in cartesian mode the line
    [-300.-90.290] is parsed, accepted and planned, and no report is
    printed. *)
Lemma stretched_line_accepted :
  exists st',
    loop_input stretched_platform 1 (fun _ => 0) ("-300.-90.290" ++ LF) cartesian_state
    = Some st'
    /\ cartesian_pos st' = {| x := -300; y := -90; z := 255; yaw := 0; pitch := 0 |}
    /\ angle_tf (dynamics_M3 st') = 159
    /\ five_axis_running st' = true
    /\ ~ In (unreachable_report ++ CRLF)%string (serial_out st').
Proof.
  eexists. split; [vm_compute; reflexivity |].
  cbn -[unreachable_report CRLF]. repeat split.
  intros H. repeat (destruct H as [H | H]; [discriminate H |]). exact H.
Qed.

(** ** Reset *)

Lemma reset_plan_dynamics p st a :
  dynamics a (reset_plan p st)
  = compute_dynamics p (set_angle_tf (dynamics a st) (to_u8 (init_angle a)))
      (to_u8 (Servo_read (servo_of a) st))
  /\ servo_writes (reset_plan p st) = servo_writes st.
Proof.
  destruct st as [m1 m2 m2s m3 m4 m5 d1 d2 d3 d4 d5 cp id sm cm sr fr out ws].
  destruct a; split; reflexivity.
Qed.

Lemma dispatch_all_servos p t st a :
  Servo_read (servo_of a) (dispatch_all p t st) = compute_angle p (dynamics a st) t
  /\ List.length (servo_writes (dispatch_all p t st)) = (List.length (servo_writes st) + 6)%nat.
Proof.
  destruct st as [m1 m2 m2s m3 m4 m5 d1 d2 d3 d4 d5 cp id sm cm sr fr out ws].
  split; [destruct a; reflexivity |].
  cbn. rewrite !List.length_app. cbn. lia.
Qed.

(** The loop body runs once when the first reading of the elapsed time
    does not exceed [TF]. *)
Lemma reset_robot_one_pass p fuel clk st :
  0 <= clk 0%nat <= clk 1%nat -> clk 1%nat < 2 ^ 31 ->
  clk 1%nat - clk 0%nat <= TF ->
  reset_robot p (S fuel) clk st
  = Some (dispatch_all p (clk 1%nat - clk 0%nat) (reset_plan p st)).
Proof.
  intros H0 H1 He. unfold reset_robot. fold (reset_plan p st).
  cbn [reset_loop]. unfold to_long.
  rewrite (to_u32_small (clk 0%nat)) by lia.
  rewrite (to_int_small (clk 0%nat)) by lia.
  rewrite (to_u32_small (clk 1%nat)) by lia.
  rewrite (to_u32_small (clk 1%nat - clk 0%nat)) by lia.
  rewrite (to_int_small (clk 1%nat - clk 0%nat)) by lia.
  rewrite (to_u32_small (clk 1%nat - clk 0%nat)) by lia.
  assert (E : (TF <? clk 1%nat - clk 0%nat) = false) by (apply Z.ltb_ge; lia).
  now rewrite E.
Qed.

(** C3, what [reset_robot] does.  The loop is [do ... while (t > TF)]:
    when the first elapsed time it reads is at most [TF] (any reading of
    [millis()] within a second and a half of the previous one), the body
    runs once, the six servos are written once and the function returns;
    when both readings fall in the same millisecond every axis is left at
    the angle it had, not at its initial angle. *)
Theorem reset_returns_after_one_pass p fuel clk st :
  0 <= clk 0%nat <= clk 1%nat -> clk 1%nat < 2 ^ 31 ->
  clk 1%nat - clk 0%nat <= TF ->
  exists st',
    reset_robot p (S fuel) clk st = Some st'
    /\ List.length (servo_writes st') = (List.length (servo_writes st) + 6)%nat
    /\ (clk 1%nat = clk 0%nat ->
        forall a, Servo_read (servo_of a) st' = to_u8 (Servo_read (servo_of a) st)).
Proof.
  intros H0 H1 He. eexists. split; [apply reset_robot_one_pass; assumption |].
  split.
  - destruct (dispatch_all_servos p (clk 1%nat - clk 0%nat) (reset_plan p st) A1)
      as [_ Hl].
    destruct (reset_plan_dynamics p st A1) as [_ Hw]. now rewrite Hl, Hw.
  - intros Heq a. rewrite Heq, Z.sub_diag.
    destruct (dispatch_all_servos p 0 (reset_plan p st) a) as [Hr _].
    destruct (reset_plan_dynamics p st a) as [Hd _].
    rewrite Hr, Hd.
    destruct (compute_dynamics_targets p
                (set_angle_tf (dynamics a st) (to_u8 (init_angle a)))
                (to_u8 (Servo_read (servo_of a) st))) as (E0 & _).
    rewrite compute_angle_start; [exact E0 | | rewrite E0; apply to_u8_range].
    rewrite compute_dynamics_t1. unfold t1_of. apply to_u32_range.
Qed.

Lemma reset_returns_after_one_pass_witness :
  exists st',
    reset_robot saturating 1 (fun _ => 5000) axis3_displaced = Some st'
    /\ List.length (servo_writes st') = (List.length (servo_writes axis3_displaced) + 6)%nat
    /\ (5000 = 5000 ->
        forall a, Servo_read (servo_of a) st'
                  = to_u8 (Servo_read (servo_of a) axis3_displaced)).
Proof.
  apply (reset_returns_after_one_pass saturating 0%nat (fun _ => 5000) axis3_displaced);
    [lia | lia | unfold TF; lia].
Defined.

Lemma reset_leaves_axis3_displaced :
  exists st',
    reset_robot saturating 1 (fun _ => 5000) axis3_displaced = Some st'
    /\ angle_tf (dynamics_M3 st') = ANGLE_INIT_M3
    /\ M3 st' = 100
    /\ M3 st' <> ANGLE_INIT_M3.
Proof.
  eexists. split; [vm_compute; reflexivity |].
  cbn. repeat split. discriminate.
Qed.

(** The loop goes on only while the elapsed time exceeds [TF]: with
    readings of [millis()] two seconds apart it has not returned after
    five passes. *)
Lemma reset_loop_runs_while_late :
  reset_robot saturating 5 (fun k => 2000 * Z.of_nat k) axis3_displaced = None.
Proof. vm_compute. reflexivity. Qed.

(** ** A rejected cartesian target *)

Lemma get_angles_from_cartesian_rejected p st :
  accepted p st = false ->
  get_angles_from_cartesian p st
  = Serial_println unreachable_report
      (set_cartesian_pos (wrist_pivot p (cartesian_pos st)) st).
Proof.
  unfold accepted, solved_byte, get_angles_from_cartesian.
  destruct st as [m1 m2 m2s m3 m4 m5 d1 d2 d3 d4 d5 cp id sm cm sr fr out ws].
  cbn [cartesian_pos set_cartesian_pos]. intros H. now rewrite H.
Qed.

(** C9.  In cartesian mode, a line whose target the solver rejects still
    goes through the rest of the branch: the report is printed, the five
    targets are the ones stored before, each of the five profiles is
    planned anew from the angle read back from its servo toward that old
    target, and [five_axis_running] is set; with the gate open the next
    scheduler iteration dispatches all axes. *)
Theorem rejected_cartesian_target_replans p fuel clk input st :
  single_motor_mode st = false -> cartesian_mode st = true ->
  String.eqb input ("motor" ++ LF) = false ->
  String.eqb input ("reset" ++ LF) = false ->
  accepted p (set_cartesian_pos (parse_cartesian input (cartesian_pos st)) st) = false ->
  exists st',
    loop_input p fuel clk input st = Some st'
    /\ In (unreachable_report ++ CRLF)%string (serial_out st')
    /\ (forall a, angle_tf (dynamics a st') = angle_tf (dynamics a st))
    /\ (forall a, dynamics a st'
                  = compute_dynamics p (dynamics a st)
                      (to_u8 (Servo_read (servo_of a) st)))
    /\ five_axis_running st' = true
    /\ single_motor_running st' = false
    /\ (is_delta_positive st' = true ->
        forall t, scheduler_iteration p t st' = dispatch_all p t st').
Proof.
  intros Hs Hc E1 E2 Hrej.
  eexists. split; [apply (loop_input_value _ _ _ _ _ E1 E2) |].
  unfold value_command, cartesian_command.
  destruct st as [m1 m2 m2s m3 m4 m5 d1 d2 d3 d4 d5 cp id sm cm sr fr out ws].
  cbn in Hs, Hc. subst sm cm.
  cbn [set_single_motor_running set_five_axis_running single_motor_mode
       cartesian_mode cartesian_pos set_cartesian_pos] in *.
  rewrite get_angles_from_cartesian_rejected by exact Hrej.
  match goal with |- context [is_delta_positive ?s] => set (st1 := s) end.
  assert (Hd : forall a, dynamics a st1
                 = compute_dynamics p
                     (dynamics a (Build_robot m1 m2 m2s m3 m4 m5 d1 d2 d3 d4 d5 cp id
                                    false true sr fr out ws))
                     (to_u8 (Servo_read (servo_of a)
                               (Build_robot m1 m2 m2s m3 m4 m5 d1 d2 d3 d4 d5 cp id
                                  false true sr fr out ws))))
    by (intros []; reflexivity).
  assert (Hout : In (unreachable_report ++ CRLF)%string (serial_out st1)).
  { subst st1. cbn -[unreachable_report CRLF].
    rewrite !in_app_iff. left. left. left. left. right. left. reflexivity. }
  assert (Hfr : five_axis_running st1 = true) by reflexivity.
  assert (Hsr : single_motor_running st1 = false) by reflexivity.
  assert (Hfinal : forall b : bool,
            exists st2, (if b then st1 else Serial_println "Error(loop): Too low acceleration" st1) = st2
              /\ In (unreachable_report ++ CRLF)%string (serial_out st2)
              /\ (forall a, dynamics a st2 = dynamics a st1)
              /\ five_axis_running st2 = true /\ single_motor_running st2 = false
              /\ is_delta_positive st2 = is_delta_positive st1).
  { intros [|]; eexists; (split; [reflexivity |]).
    - repeat split; assumption.
    - clearbody st1.
      destruct st1 as [n1 n2 n2s n3 n4 n5 e1 e2 e3 e4 e5 cp' id' sm' cm' sr' fr' out' ws'].
      cbn in *. repeat split; try assumption; try (intros []; reflexivity).
      apply in_or_app. now left. }
  destruct (Hfinal (is_delta_positive st1)) as (st2 & Eq & G1 & G2 & G3 & G4 & G5).
  rewrite Eq. clear Eq Hfinal.
  split; [exact G1 |].
  split. { intros a. rewrite G2, Hd.
           now destruct (compute_dynamics_targets p
             (dynamics a (Build_robot m1 m2 m2s m3 m4 m5 d1 d2 d3 d4 d5 cp id
                            false true sr fr out ws))
             (to_u8 (Servo_read (servo_of a)
                       (Build_robot m1 m2 m2s m3 m4 m5 d1 d2 d3 d4 d5 cp id
                          false true sr fr out ws)))) as (_ & Ef & _). }
  split. { intros a. now rewrite G2, Hd. }
  split; [exact G3 |]. split; [exact G4 |].
  intros Hg t. unfold scheduler_iteration. now rewrite Hg, G4, G3.
Qed.

Lemma rejected_cartesian_target_replans_witness :
  exists st',
    loop_input folded_platform 1 (fun _ => 0) ("0010.040.176" ++ LF) cartesian_state
    = Some st'
    /\ In (unreachable_report ++ CRLF)%string (serial_out st')
    /\ (forall a, angle_tf (dynamics a st') = angle_tf (dynamics a cartesian_state))
    /\ (forall a, dynamics a st'
                  = compute_dynamics folded_platform (dynamics a cartesian_state)
                      (to_u8 (Servo_read (servo_of a) cartesian_state)))
    /\ five_axis_running st' = true
    /\ single_motor_running st' = false
    /\ (is_delta_positive st' = true ->
        forall t, scheduler_iteration folded_platform t st'
                  = dispatch_all folded_platform t st').
Proof.
  apply (rejected_cartesian_target_replans folded_platform 1%nat (fun _ => 0)
           ("0010.040.176" ++ LF) cartesian_state); reflexivity.
Defined.

(** * Further properties *)

(** ** The discriminant and the times of a plan *)

(** The discriminant of a plan between two bytes. *)
Lemma compute_dynamics_delta p dyn current :
  0 <= current <= 255 -> 0 <= angle_tf dyn <= 255 ->
  delta (compute_dynamics p dyn current)
  = 230400 - 1280 * Z.abs (angle_tf dyn - current).
Proof.
  intros Hc Hf.
  destruct (compute_dynamics_targets p dyn current) as (_ & _ & _ & Ed).
  rewrite DISTANCE_of_abs in Ed by lia.
  destruct (plan_facts p (Z.abs (angle_tf dyn - current)) ltac:(lia)) as [E _].
  cbv zeta in E. rewrite <- Ed in E. exact E.
Qed.

(** X3. The discriminant of a plan is [230400 - 1280 * distance]; the plan
    is feasible exactly when the two bytes are at most 180 degrees apart. *)
Theorem plan_feasible_iff p dyn current :
  0 <= current <= 255 -> 0 <= angle_tf dyn <= 255 ->
  let d := compute_dynamics p dyn current in
  delta d = 230400 - 1280 * Z.abs (angle_tf dyn - current)
  /\ (0 <= delta d <-> Z.abs (angle_tf dyn - current) <= 180).
Proof.
  intros Hc Hf d. subst d.
  pose proof (compute_dynamics_delta p dyn current Hc Hf) as E.
  split; [exact E |]. rewrite E. lia.
Qed.

Lemma plan_feasible_iff_witness :
  let d := compute_dynamics wrapping (set_angle_tf zero_dynamics 200) 20 in
  delta d = 230400 - 1280 * Z.abs (angle_tf (set_angle_tf zero_dynamics 200) - 20)
  /\ (0 <= delta d <-> Z.abs (angle_tf (set_angle_tf zero_dynamics 200) - 20) <= 180).
Proof.
  apply (plan_feasible_iff wrapping (set_angle_tf zero_dynamics 200) 20); cbn; lia.
Defined.

(** X4. The discriminant and the two times of a plan depend on the distance
    only: the move from [a] to [b] and the move from [b] to [a] have the
    same ones. *)
Theorem plan_times_symmetric p dyn dyn' a b :
  0 <= a <= 255 -> 0 <= b <= 255 ->
  let d := compute_dynamics p (set_angle_tf dyn b) a in
  let d' := compute_dynamics p (set_angle_tf dyn' a) b in
  delta d = delta d' /\ t1 d = t1 d' /\ t2 d = t2 d'.
Proof.
  intros Ha Hb d d'.
  destruct (compute_dynamics_targets p (set_angle_tf dyn b) a) as (_ & _ & _ & Ed).
  destruct (compute_dynamics_targets p (set_angle_tf dyn' a) b) as (_ & _ & _ & Ed').
  fold d in Ed. fold d' in Ed'. cbn [angle_tf set_angle_tf] in Ed, Ed'.
  rewrite DISTANCE_of_abs in Ed, Ed' by lia.
  replace (Z.abs (a - b)) with (Z.abs (b - a)) in Ed' by lia.
  assert (E : delta d = delta d') by congruence.
  assert (E1 : t1 d = t1 d').
  { subst d d'. rewrite !compute_dynamics_t1. now rewrite E. }
  split; [exact E |]. split; [exact E1 |].
  subst d d'. rewrite !compute_dynamics_t2. now rewrite E1.
Qed.

Lemma plan_times_symmetric_witness :
  let d := compute_dynamics saturating (set_angle_tf zero_dynamics 165) 0 in
  let d' := compute_dynamics saturating (set_angle_tf zero_dynamics 0) 165 in
  delta d = delta d' /\ t1 d = t1 d' /\ t2 d = t2 d'.
Proof.
  apply (plan_times_symmetric saturating zero_dynamics zero_dynamics 0 165); lia.
Defined.

Lemma SPEED_of_spec_witness :
  let s := SPEED_of saturating 19200 in
  0 <= s <= 240 /\ 19200 <= (480 - 2 * s) * (480 - 2 * s)
  /\ (480 - 2 * (s + 1)) * (480 - 2 * (s + 1)) < 19200.
Proof. apply (SPEED_of_spec saturating 19200). lia. Defined.

(** ** The sampler at and after the end of a move *)

(** X5. Past [TF] the sampler of a feasible plan returns the target. *)
Theorem sample_after_TF p dyn current t :
  0 <= current <= 255 -> 0 <= angle_tf dyn <= 255 ->
  let d := compute_dynamics p dyn current in
  0 <= delta d -> TF < t ->
  compute_angle p d t = angle_tf dyn.
Proof.
  intros Hc Hf d Hd Ht.
  destruct (compute_dynamics_times p dyn current Hc Hf Hd)
    as (_ & _ & H1 & H2 & _).
  fold d in H1, H2.
  destruct (compute_dynamics_targets p dyn current) as (_ & Ef & _).
  fold d in Ef. unfold compute_angle.
  assert (E1 : (t <=? t1 d) = false) by (apply Z.leb_gt; unfold TF in *; lia).
  assert (E2 : (t <=? t2 d) = false) by (apply Z.leb_gt; unfold TF in *; lia).
  assert (E3 : (t <=? TF) = false) by (apply Z.leb_gt; lia).
  rewrite E1, E2, E3, !andb_false_r. exact Ef.
Qed.

Lemma sample_after_TF_witness :
  compute_angle saturating
    (compute_dynamics saturating (set_angle_tf zero_dynamics 0) 165) 1501 = 0.
Proof.
  apply (sample_after_TF saturating (set_angle_tf zero_dynamics 0) 165 1501);
    [lia | cbn; lia | vm_compute; discriminate | unfold TF; lia].
Defined.

(** X6. A move of at least two degrees, in either direction, is sampled at
    exactly its target at [TF]. *)
Theorem sample_reaches_target p dyn current :
  0 <= current <= 255 -> 0 <= angle_tf dyn <= 255 ->
  2 <= Z.abs (angle_tf dyn - current) <= 180 ->
  compute_angle p (compute_dynamics p dyn current) TF = angle_tf dyn.
Proof.
  intros Hc Hf HD.
  assert (Hd : 0 <= delta (compute_dynamics p dyn current))
    by (rewrite (compute_dynamics_delta p dyn current Hc Hf); lia).
  destruct (compute_dynamics_times p dyn current Hc Hf Hd)
    as (_ & _ & H1 & H2 & _ & _ & H3).
  destruct (compute_dynamics_targets p dyn current) as (_ & Ef & _).
  specialize (H3 ltac:(lia)).
  rewrite compute_angle_end; [exact Ef | | | rewrite Ef; exact Hf];
    unfold TF in *; lia.
Qed.

Lemma sample_reaches_target_witness :
  compute_angle wrapping
    (compute_dynamics wrapping (set_angle_tf zero_dynamics 0) 165) TF = 0.
Proof.
  apply (sample_reaches_target wrapping (set_angle_tf zero_dynamics 0) 165);
    cbn; lia.
Defined.

(** X7. A move of one degree is not played back: its peak speed is truncated
    to 0, and the sampler returns the current angle during the whole of
    [0, TF]. *)
Theorem one_degree_move_is_held p dyn current t :
  0 <= current <= 255 -> 0 <= angle_tf dyn <= 255 ->
  Z.abs (angle_tf dyn - current) = 1 -> 0 <= t <= TF ->
  compute_angle p (compute_dynamics p dyn current) t = current.
Proof.
  intros Hc Hf HD Ht.
  destruct (plan_facts p 1 ltac:(lia)) as [Edl Hfacts].
  cbv zeta in Edl, Hfacts.
  destruct (compute_dynamics_targets p dyn current) as (E0 & Ef & _ & Ed).
  rewrite DISTANCE_of_abs, HD in Ed by lia.
  assert (Hd : 0 <= delta (compute_dynamics p dyn current)) by (rewrite Ed, Edl; lia).
  destruct (compute_dynamics_times p dyn current Hc Hf Hd)
    as (_ & Hs & H1 & H2 & _).
  assert (Es : SPEED_of p (delta (compute_dynamics p dyn current)) = 0).
  { rewrite Ed. vm_compute. reflexivity. }
  assert (Et1 : t1 (compute_dynamics p dyn current) = 0).
  { rewrite compute_dynamics_t1, Es. vm_compute. reflexivity. }
  destruct (compute_dynamics_still p dyn current Hc Es Et1) as [Ea1 Ea2].
  rewrite (compute_angle_still p (compute_dynamics p dyn current) t);
    rewrite ?E0, ?Et1 in *; try lia; try assumption.
Qed.

Lemma one_degree_move_is_held_witness :
  compute_angle saturating
    (compute_dynamics saturating (set_angle_tf zero_dynamics 91) 90) 1500
  = 90.
Proof.
  apply (one_degree_move_is_held saturating (set_angle_tf zero_dynamics 91) 90 1500);
    cbn; unfold TF; lia.
Defined.

(** ** Moves toward a larger angle *)

Lemma trunc_ratio n m : 0 <= n -> 0 < m -> trunc (inject_Z n / inject_Z m) = n / m.
Proof.
  intros Hn Hm. unfold trunc.
  assert (Hq : Qle_bool 0 (inject_Z n / inject_Z m) = true).
  { apply Qle_bool_iff. apply Qle_shift_div_l.
    - change 0%Q with (inject_Z 0). rewrite <- Zlt_Qlt. exact Hm.
    - rewrite Qmult_0_l. change 0%Q with (inject_Z 0). rewrite <- Zle_Qle. exact Hn. }
  rewrite Hq. symmetry. apply Zdiv_Qdiv.
Qed.

Lemma trunc_ratio_plus q n m a :
  0 <= n -> 0 < m -> 0 <= a ->
  (q == inject_Z n / inject_Z m + inject_Z a)%Q -> trunc q = n / m + a.
Proof.
  intros Hn Hm Ha Hq.
  assert (E : (q == inject_Z (n + a * m) / inject_Z m)%Q).
  { rewrite Hq, inject_Z_plus, inject_Z_mult. field.
    intros H. unfold Qeq in H. cbn in H. lia. }
  rewrite (trunc_comp _ _ E). rewrite trunc_ratio; [| nia | exact Hm].
  rewrite Z.div_add by lia. reflexivity.
Qed.

Lemma forward_plan_check p :
  forallb
    (fun D =>
       (D =? 0)
       || forward_plan_ok D (SPEED_of p (delta_of D)) (t1_of p (SPEED_of p (delta_of D))))
    (upto 181) = true.
Proof. vm_compute. reflexivity. Qed.

(** The three phases of [forward_offset], each with its range: the
    offsets of the first phase are at most [A1], those of the second lie
    between [A1] and [A1 + A2], those of the third between
    [(D * 6250 - T1 * T1) / 6250] and [D]. *)
Lemma forward_offset_phases D s T1 t :
  forward_plan_ok D s T1 = true -> 0 <= t <= 1500 ->
  let A1 := T1 * T1 / 6250 in
  let A2 := s * (1500 - T1 - T1) / 1000 in
  let M := (D * 6250 - T1 * T1) / 6250 in
  0 <= A1 /\ 0 <= A2 /\ A1 + A2 <= M /\ M <= D
  /\ ((t <= T1 /\ forward_offset D s T1 t = t * t / 6250
       /\ 0 <= t * t / 6250 <= A1)
      \/ (T1 < t <= 1500 - T1
          /\ forward_offset D s T1 t
             = A1 + (t * A2 / (1500 - T1 - T1) - A2 * T1 / (1500 - T1 - T1))
          /\ 0 <= t * A2 / (1500 - T1 - T1) - A2 * T1 / (1500 - T1 - T1) <= A2)
      \/ (1500 - T1 < t
          /\ forward_offset D s T1 t = (D * 6250 - (1500 - t) * (1500 - t)) / 6250
          /\ 0 <= D * 6250 - (1500 - t) * (1500 - t)
          /\ M <= (D * 6250 - (1500 - t) * (1500 - t)) / 6250 <= D)).
Proof.
  intros Hok Ht A1 A2 M.
  unfold forward_plan_ok in Hok. rewrite !andb_true_iff, !Z.leb_le in Hok.
  destruct Hok as ((((Hs0 & Hs1) & HT0) & HT1) & HR).
  assert (HA1 : 0 <= A1) by (apply Z.div_pos; nia).
  assert (HA2 : 0 <= A2) by (apply Z.div_pos; nia).
  assert (K1 : 6250 * A1 <= T1 * T1) by (apply Z.mul_div_le; lia).
  assert (K2 : 1000 * A2 <= s * (1500 - T1 - T1)) by (apply Z.mul_div_le; lia).
  assert (HM1 : A1 + A2 <= M) by (apply Z.div_le_lower_bound; lia).
  assert (HM2 : M <= D).
  { apply Z.div_le_upper_bound; [lia |]. nia. }
  repeat (split; [assumption |]).
  unfold forward_offset. cbv zeta. fold A1 A2.
  replace (1500 - T1 - T1) with (1500 - T1 - T1) by lia.
  destruct (t <=? T1) eqn:C1.
  - apply Z.leb_le in C1. left. split; [exact C1 |]. split; [reflexivity |].
    split; [apply Z.div_pos; nia |]. apply Z.div_le_mono; nia.
  - apply Z.leb_gt in C1. destruct (t <=? 1500 - T1) eqn:C2.
    + apply Z.leb_le in C2. right. left. split; [lia |]. split; [reflexivity |].
      assert (Hc : 0 < 1500 - T1 - T1) by lia.
      assert (E : (1500 - T1) * A2 / (1500 - T1 - T1)
                  = A2 * T1 / (1500 - T1 - T1) + A2).
      { replace ((1500 - T1) * A2) with (A2 * T1 + A2 * (1500 - T1 - T1)) by lia.
        apply Z.div_add. lia. }
      assert (L1 : A2 * T1 / (1500 - T1 - T1) <= t * A2 / (1500 - T1 - T1))
        by (apply Z.div_le_mono; nia).
      assert (L2 : t * A2 / (1500 - T1 - T1) <= (1500 - T1) * A2 / (1500 - T1 - T1))
        by (apply Z.div_le_mono; nia).
      lia.
    + apply Z.leb_gt in C2. right. right. split; [exact C2 |]. split; [reflexivity |].
      assert (Hsq : (1500 - t) * (1500 - t) <= T1 * T1) by nia.
      split; [nia |]. split.
      * apply Z.div_le_mono; lia.
      * apply Z.div_le_upper_bound; nia.
Qed.

Lemma forward_plan_ok_sound D s T1 :
  forward_plan_ok D s T1 = true ->
  0 <= s <= 240 /\ 0 <= T1 <= 750
  /\ T1 * T1 / 6250 + s * (1500 - T1 - T1) / 1000 <= D
  /\ forall t, 0 <= t < 1500 ->
       0 <= forward_offset D s T1 t <= forward_offset D s T1 (t + 1)
       /\ forward_offset D s T1 (t + 1) <= D
       /\ (1500 - T1 < t + 1 -> 0 <= D * 6250 - (1500 - (t + 1)) * (1500 - (t + 1))).
Proof.
  intros Hok.
  assert (Hb : 0 <= s <= 240 /\ 0 <= T1 <= 750).
  { revert Hok. unfold forward_plan_ok. rewrite !andb_true_iff, !Z.leb_le. lia. }
  destruct Hb as [Hs HT].
  split; [exact Hs |]. split; [exact HT |].
  split.
  { destruct (forward_offset_phases D s T1 0 Hok ltac:(lia)) as (_ & _ & H1 & H2 & _).
    lia. }
  intros t Ht.
  destruct (forward_offset_phases D s T1 t Hok ltac:(lia))
    as (HA1 & HA2 & HM1 & HM2 & Pt).
  destruct (forward_offset_phases D s T1 (t + 1) Hok ltac:(lia))
    as (_ & _ & _ & _ & Pu).
  cbv zeta in *.
  set (A1 := T1 * T1 / 6250) in *.
  set (A2 := s * (1500 - T1 - T1) / 1000) in *.
  set (M := (D * 6250 - T1 * T1) / 6250) in *.
  destruct Pt as [(Ct & Et & Rt) | [(Ct & Et & Rt) | (Ct & Et & Nt & Rt)]];
    destruct Pu as [(Cu & Eu & Ru) | [(Cu & Eu & Ru) | (Cu & Eu & Nu & Ru)]];
    try lia; rewrite Et, Eu; try lia.
  - (* both in the first phase *)
    assert (t * t / 6250 <= (t + 1) * (t + 1) / 6250) by (apply Z.div_le_mono; nia).
    lia.
  - (* both in the second phase *)
    assert (t * A2 / (1500 - T1 - T1) <= (t + 1) * A2 / (1500 - T1 - T1))
      by (apply Z.div_le_mono; nia).
    lia.
  - (* both in the third phase *)
    assert ((D * 6250 - (1500 - t) * (1500 - t)) / 6250
            <= (D * 6250 - (1500 - (t + 1)) * (1500 - (t + 1))) / 6250)
      by (apply Z.div_le_mono; nia).
    lia.
Qed.

Lemma to_int_to_u32 n : - 2 ^ 31 <= n < 2 ^ 31 -> to_int (to_u32 n) = n.
Proof.
  intros H. unfold to_int, to_u32.
  rewrite Zplus_mod_idemp_l. rewrite Z.mod_small; lia.
Qed.

Lemma steps_monotone (f : Z -> Z) (N : Z) :
  (forall t, 0 <= t < N -> f t <= f (t + 1)) ->
  forall t t', 0 <= t <= t' -> t' <= N -> f t <= f t'.
Proof.
  intros Hstep t t' [H0 Hle] HN.
  replace t' with (t + Z.of_nat (Z.to_nat (t' - t))) in * by lia.
  induction (Z.to_nat (t' - t)) as [| k IH].
  - rewrite Z.add_0_r. lia.
  - rewrite Nat2Z.inj_succ in *. unfold Z.succ in *.
    specialize (IH ltac:(lia) ltac:(lia)).
    specialize (Hstep (t + Z.of_nat k) ltac:(lia)).
    replace (t + (Z.of_nat k + 1)) with (t + Z.of_nat k + 1) by lia. lia.
Qed.

Lemma forward_offset_range D s T1 t :
  forward_plan_ok D s T1 = true -> 0 <= t <= 1500 ->
  0 <= forward_offset D s T1 t <= D.
Proof.
  intros Hok Ht. destruct (forward_plan_ok_sound D s T1 Hok) as (_ & _ & _ & Hs).
  destruct (Z.eq_dec t 1500) as [-> | Hne].
  - destruct (Hs 1499 ltac:(lia)) as (H1 & H2 & _).
    change (1499 + 1) with 1500 in *. lia.
  - destruct (Hs t ltac:(lia)) as (H1 & H2 & _). lia.
Qed.

(** The plan of a move toward a larger angle, field by field. *)
Lemma forward_plan_fields p dyn a0 atf :
  0 <= a0 -> a0 < atf -> atf <= 180 ->
  let d := compute_dynamics p (set_angle_tf dyn atf) a0 in
  let D := atf - a0 in
  let s := SPEED_of p (delta_of D) in
  let T1 := t1_of p s in
  forward_plan_ok D s T1 = true
  /\ forward d = true /\ angle_t0 d = a0 /\ angle_tf d = atf
  /\ t1 d = T1 /\ t2 d = 1500 - T1
  /\ angle_t1 d = a0 + T1 * T1 / 6250
  /\ angle_t2 d = a0 + T1 * T1 / 6250 + s * (1500 - T1 - T1) / 1000.
Proof.
  intros H0 Hlt H180 d D s T1.
  assert (Hok : forward_plan_ok D s T1 = true).
  { pose proof (forallb_upto 181 _ (forward_plan_check p) D ltac:(subst D; lia)) as H.
    cbv beta in H. apply orb_true_iff in H. destruct H as [H | H]; [| exact H].
    apply Z.eqb_eq in H. subst D. lia. }
  destruct (forward_plan_ok_sound D s T1 Hok) as (Hs & HT & HA & _).
  destruct (compute_dynamics_targets p (set_angle_tf dyn atf) a0) as (E0 & Ef & Efw & Ed).
  fold d in E0, Ef, Efw, Ed. cbn [angle_tf set_angle_tf] in Ef, Efw, Ed.
  assert (EDist : DISTANCE_of p a0 atf = D).
  { rewrite DISTANCE_of_abs by lia. subst D. lia. }
  rewrite EDist in Ed.
  assert (Efw' : forward d = true) by (rewrite Efw; apply Z.ltb_lt; lia).
  assert (Et1 : t1 d = T1).
  { pose proof (compute_dynamics_t1 p (set_angle_tf dyn atf) a0) as E.
    fold d in E. rewrite E, Ed. reflexivity. }
  assert (Et2 : t2 d = 1500 - T1).
  { pose proof (compute_dynamics_t2 p (set_angle_tf dyn atf) a0) as E.
    fold d in E. rewrite E, Et1. unfold TF. apply to_u32_small. lia. }
  assert (ESIGN : int_div p (atf - a0) D = 1).
  { rewrite int_div_nonzero by (subst D; lia). subst D.
    rewrite Z.quot_same by lia. reflexivity. }
  assert (HA1 : 0 <= T1 * T1 / 6250) by (apply Z.div_pos; nia).
  assert (HA2 : 0 <= s * (1500 - T1 - T1) / 1000) by (apply Z.div_pos; nia).
  assert (Ea1 : angle_t1 d = a0 + T1 * T1 / 6250).
  { pose proof (compute_dynamics_angle_t1 p (set_angle_tf dyn atf) a0) as E.
    cbv zeta in E. fold d in E. cbn [angle_tf set_angle_tf] in E.
    rewrite EDist, ESIGN, Et1 in E. rewrite E.
    change (int_mul 1 ACC) with 320.
    unfold double_to_u8.
    rewrite (trunc_ratio_plus _ (T1 * T1) 6250 a0); try lia; try nia.
    - rewrite u8_of_integer_part_small; lia.
    - unfold pow2. rewrite inject_Z_mult.
      change (inject_Z 320) with 320%Q. change (inject_Z 6250) with 6250%Q. field. }
  repeat split; try assumption.
  pose proof (compute_dynamics_angle_t2 p (set_angle_tf dyn atf) a0) as E.
  cbv zeta in E. fold d in E. cbn [angle_tf set_angle_tf] in E.
  rewrite EDist, ESIGN, Et1, Et2, Ea1, Ed in E. fold s in E. rewrite E.
  unfold int_mul. rewrite Z.mul_1_l.
  rewrite (to_int_small s) by lia. rewrite (to_u32_small s) by lia.
  rewrite (to_u32_small (1500 - T1 - T1)) by lia.
  unfold u32_mul. rewrite (to_u32_small (s * (1500 - T1 - T1))) by nia.
  unfold double_to_u8.
  rewrite (trunc_ratio_plus _ (s * (1500 - T1 - T1)) 1000 (a0 + T1 * T1 / 6250));
    try lia; try nia.
  - rewrite u8_of_integer_part_small; lia.
  - change (inject_Z 1000) with 1000%Q. field.
Qed.

(** The sampler of such a plan is the current angle plus
    [forward_offset]. *)
Lemma compute_angle_forward p dyn a0 atf t :
  0 <= a0 -> a0 < atf -> atf <= 180 -> 0 <= t <= 1500 ->
  compute_angle p (compute_dynamics p (set_angle_tf dyn atf) a0) t
  = a0 + forward_offset (atf - a0) (SPEED_of p (delta_of (atf - a0)))
           (t1_of p (SPEED_of p (delta_of (atf - a0)))) t.
Proof.
  intros H0 Hlt H180 Ht.
  destruct (forward_plan_fields p dyn a0 atf H0 Hlt H180)
    as (Hok & Efw & E0 & Ef & Et1 & Et2 & Ea1 & Ea2).
  cbv zeta in *.
  set (d := compute_dynamics p (set_angle_tf dyn atf) a0) in *.
  set (D := atf - a0) in *.
  set (s := SPEED_of p (delta_of D)) in *.
  set (T1 := t1_of p s) in *.
  destruct (forward_plan_ok_sound D s T1 Hok) as (Hs & HT & HA & Hstep).
  pose proof (forward_offset_range D s T1 t Hok Ht) as Hr.
  assert (HA1 : 0 <= T1 * T1 / 6250) by (apply Z.div_pos; nia).
  assert (HA2 : 0 <= s * (1500 - T1 - T1) / 1000) by (apply Z.div_pos; nia).
  unfold compute_angle. rewrite Et1, Et2. unfold forward_offset in *.
  destruct (t <=? T1) eqn:C1.
  - (* acceleration *)
    unfold accel_phase. rewrite Efw, E0. unfold double_to_u8.
    rewrite (trunc_ratio_plus _ (t * t) 6250 a0); try lia; try nia.
    + rewrite u8_of_integer_part_small; lia.
    + unfold pow2, ACC. rewrite inject_Z_mult.
      change (inject_Z 320) with 320%Q. change (inject_Z 6250) with 6250%Q. field.
  - apply Z.leb_gt in C1.
    assert (C1' : (T1 <? t) = true) by (apply Z.ltb_lt; lia). rewrite C1'.
    destruct (t <=? 1500 - T1) eqn:C2; cbn [andb].
    + (* cruise *)
      apply Z.leb_le in C2.
      unfold cruise_phase. rewrite Et1, Et2, Ea1, Ea2.
      replace (a0 + T1 * T1 / 6250 + s * (1500 - T1 - T1) / 1000
               - (a0 + T1 * T1 / 6250))
        with (s * (1500 - T1 - T1) / 1000) by lia.
      replace (1500 - T1 - T1) with (1500 - T1 - T1) in * by lia.
      set (A2 := s * (1500 - T1 - T1) / 1000) in *.
      set (A1 := T1 * T1 / 6250) in *.
      assert (HA2D : A2 <= 180) by lia.
      rewrite (to_u32_small A2) by lia.
      rewrite (to_u32_small (1500 - T1 - T1)) by lia.
      unfold u32_mul, u32_div.
      rewrite (to_u32_small (A2 * T1)) by nia.
      rewrite (to_u32_small (t * A2)) by nia.
      assert (HX : 0 <= A2 * T1 / (1500 - T1 - T1) <= 135000).
      { split; [apply Z.div_pos; nia |].
        apply Z.div_le_upper_bound; nia. }
      rewrite to_int_to_u32 by lia.
      replace (t * A2 / (1500 - T1 - T1) + (a0 + A1 - A2 * T1 / (1500 - T1 - T1)))
        with (a0 + (A1 + (t * A2 / (1500 - T1 - T1) - A2 * T1 / (1500 - T1 - T1))))
        by lia.
      rewrite to_u32_small by lia. apply to_u8_small. lia.
    + (* deceleration *)
      apply Z.leb_gt in C2.
      assert (C3 : (1500 - T1 <? t) = true) by (apply Z.ltb_lt; lia).
      assert (C4 : (t <=? TF) = true) by (apply Z.leb_le; unfold TF; lia).
      rewrite C3, C4. cbn [andb].
      unfold decel_phase. rewrite Efw, Ef. unfold TF.
      rewrite (to_u32_small (1500 - t)) by lia.
      destruct (Hstep (t - 1) ltac:(lia)) as (_ & _ & Hnum).
      replace (t - 1 + 1) with t in Hnum by lia. specialize (Hnum ltac:(lia)).
      unfold double_to_u8.
      rewrite (trunc_ratio_plus _ (D * 6250 - (1500 - t) * (1500 - t)) 6250 a0);
        try lia.
      * rewrite u8_of_integer_part_small; lia.
      * unfold pow2, ACC. subst D.
        unfold Z.sub.
        repeat (rewrite inject_Z_plus || rewrite inject_Z_mult || rewrite inject_Z_opp).
        change (inject_Z 320) with 320%Q. change (inject_Z 6250) with 6250%Q.
        change (inject_Z 1500) with 1500%Q. field.
Qed.

(** X8. For every move toward a larger angle between 0 and 180 degrees the
    sampler is monotone on [0, TF]: it starts at the current angle, never
    decreases and never passes the target, on every platform. *)
Theorem forward_move_monotone p dyn current target :
  0 <= current -> current < target -> target <= 180 ->
  let d := compute_dynamics p (set_angle_tf dyn target) current in
  forall t t', 0 <= t <= t' -> t' <= TF ->
    current <= compute_angle p d t
    /\ compute_angle p d t <= compute_angle p d t'
    /\ compute_angle p d t' <= target.
Proof.
  intros H0 Hlt H180 d t t' Ht Ht'. unfold TF in Ht'. subst d.
  rewrite !compute_angle_forward by lia.
  destruct (forward_plan_fields p dyn current target H0 Hlt H180) as (Hok & _).
  cbv zeta in Hok.
  set (D := target - current) in *.
  set (s := SPEED_of p (delta_of D)) in *.
  set (T1 := t1_of p s) in *.
  destruct (forward_plan_ok_sound D s T1 Hok) as (_ & _ & _ & Hstep).
  pose proof (forward_offset_range D s T1 t Hok ltac:(lia)) as R1.
  pose proof (forward_offset_range D s T1 t' Hok ltac:(lia)) as R2.
  assert (Hm : forward_offset D s T1 t <= forward_offset D s T1 t').
  { apply (steps_monotone (forward_offset D s T1) 1500); try lia.
    intros u Hu. destruct (Hstep u Hu) as (H1 & _). lia. }
  subst D. lia.
Qed.

Lemma forward_move_monotone_witness :
  90 <= compute_angle saturating
          (compute_dynamics saturating (set_angle_tf zero_dynamics 180) 90) 300
  /\ compute_angle saturating
       (compute_dynamics saturating (set_angle_tf zero_dynamics 180) 90) 300
     <= compute_angle saturating
          (compute_dynamics saturating (set_angle_tf zero_dynamics 180) 90) 1300
  /\ compute_angle saturating
       (compute_dynamics saturating (set_angle_tf zero_dynamics 180) 90) 1300
     <= 180.
Proof.
  apply (forward_move_monotone saturating zero_dynamics 90 180); unfold TF; lia.
Defined.

(** ** Moves toward a smaller angle *)

(** X9. In the last phase of every feasible move toward a smaller angle by
    two degrees or more, on every platform, the sampler does not follow the
    profile: [t - TF] is computed unsigned, the double converted to
    [uint8_t] has an integer part of 10^15 or more, and the sample is
    whatever the platform makes of that conversion. The phase is not empty:
    it holds at least the two milliseconds before [TF]. *)
Theorem backward_last_phase_out_of_range p dyn current target :
  0 <= target -> target + 2 <= current -> current <= target + 180 ->
  current <= 255 ->
  let d := compute_dynamics p (set_angle_tf dyn target) current in
  t2 d <= TF - 3
  /\ forall t, t2 d < t -> t < TF ->
       exists n, 10 ^ 15 <= n /\ compute_angle p d t = to_u8 (oor_to_u8 p n).
Proof.
  intros H0 H2 H180 H255 d.
  assert (Hf : angle_tf (set_angle_tf dyn target) = target) by reflexivity.
  destruct (compute_dynamics_targets p (set_angle_tf dyn target) current)
    as (E0 & Ef & Efw & _).
  fold d in E0, Ef, Efw. rewrite Hf in Ef, Efw.
  assert (Hc : 0 <= current <= 255) by lia.
  assert (Hft : 0 <= angle_tf (set_angle_tf dyn target) <= 255) by (rewrite Hf; lia).
  pose proof (compute_dynamics_delta p (set_angle_tf dyn target) current Hc Hft) as Ed.
  fold d in Ed. rewrite Hf in Ed.
  assert (Hd : 0 <= delta d) by lia.
  destruct (compute_dynamics_times p (set_angle_tf dyn target) current Hc Hft Hd)
    as (_ & _ & H1 & H2' & _ & _ & H3).
  fold d in H1, H2', H3. rewrite Hf in H3. specialize (H3 ltac:(lia)).
  split; [lia |].
  intros t Ht2 Ht.
  assert (Hb : forward d = false) by (rewrite Efw; apply Z.ltb_ge; lia).
  assert (Ht0 : 0 <= t) by (unfold TF in *; lia).
  pose proof (backward_decel_out_of_range d t Hb ltac:(lia) (conj Ht0 Ht)) as Hq.
  exists (Qfloor (decel_phase d t)).
  assert (Hfl : 10 ^ 15 <= Qfloor (decel_phase d t)).
  { rewrite <- (Qfloor_Z (10 ^ 15)). apply Qfloor_resp_le. now apply Qlt_le_weak. }
  split; [exact Hfl |].
  unfold compute_angle.
  assert (E1 : (t <=? t1 d) = false) by (apply Z.leb_gt; unfold TF in *; lia).
  assert (E2 : (t <=? t2 d) = false) by (apply Z.leb_gt; lia).
  assert (E3 : (t2 d <? t) = true) by (apply Z.ltb_lt; lia).
  assert (E4 : (t <=? TF) = true) by (apply Z.leb_le; lia).
  rewrite E1, E2, E3, E4, andb_false_r. cbn [andb].
  unfold double_to_u8, trunc.
  assert (Hpos : Qle_bool 0 (decel_phase d t) = true).
  { apply Qle_bool_iff. apply Qlt_le_weak.
    apply Qle_lt_trans with (inject_Z (10 ^ 15)); [| exact Hq].
    change 0%Q with (inject_Z 0). rewrite <- Zle_Qle. lia. }
  rewrite Hpos. unfold u8_of_integer_part.
  assert (E5 : (Qfloor (decel_phase d t) <=? 255) = false) by (apply Z.leb_gt; lia).
  rewrite E5, andb_false_r. reflexivity.
Qed.

Lemma backward_last_phase_out_of_range_witness :
  let d := compute_dynamics wrapping (set_angle_tf zero_dynamics 0) 165 in
  t2 d <= TF - 3
  /\ forall t, t2 d < t -> t < TF ->
       exists n, 10 ^ 15 <= n /\ compute_angle wrapping d t = to_u8 (oor_to_u8 wrapping n).
Proof.
  apply (backward_last_phase_out_of_range wrapping zero_dynamics 165 0); lia.
Defined.

Lemma backward_moves_not_monotone_saturating_witness :
  let d := compute_dynamics saturating (set_angle_tf zero_dynamics 90) 180 in
  0 <= delta d /\ ~ monotone_toward_target saturating d.
Proof.
  apply (backward_moves_not_monotone_saturating zero_dynamics 180 90); lia.
Defined.

(** ** The scheduler *)

Ltac destruct_robot st :=
  destruct st as [m1 m2 m2s m3 m4 m5 d1 d2 d3 d4 d5 cp id sm cm sr fr out ws].

(** An iteration changes nothing but the servos and the record of
    writes. *)
Lemma scheduler_iteration_frame p t st :
  let st' := scheduler_iteration p t st in
  (forall a, dynamics a st' = dynamics a st)
  /\ cartesian_pos st' = cartesian_pos st
  /\ motor_id st' = motor_id st
  /\ single_motor_mode st' = single_motor_mode st
  /\ cartesian_mode st' = cartesian_mode st
  /\ single_motor_running st' = single_motor_running st
  /\ five_axis_running st' = five_axis_running st
  /\ serial_out st' = serial_out st.
Proof.
  unfold scheduler_iteration.
  destruct (is_delta_positive st); [| repeat split].
  destruct_robot st. cbn [single_motor_running five_axis_running motor_id].
  destruct sr.
  - destruct id as [[] [] [] [] [] [] [] []]; cbn;
      repeat split; try (intros []); reflexivity.
  - destruct fr; cbn; repeat split; try (intros []); reflexivity.
Qed.

(** In single-motor mode, with the gate open, an iteration writes the
    sample of the selected axis to the servos that axis drives (axis 2
    drives [M2] and [M2s]) and to no other servo. *)
Lemma single_axis_dispatch p t st a :
  is_delta_positive st = true ->
  single_motor_running st = true ->
  motor_id st = char_of a ->
  forall s,
    Servo_read s (scheduler_iteration p t st)
    = if drives a s then compute_angle p (dynamics a st) t else Servo_read s st.
Proof.
  intros Hg Hs Hid s. unfold scheduler_iteration. rewrite Hg, Hs, Hid.
  destruct_robot st. destruct a, s; reflexivity.
Qed.

(** The scheduler leaves the state as it is when no run flag is set, and
    in single-motor mode when [motor_id] is none of '1'..'5'. *)
Lemma scheduler_idle p t st :
  (single_motor_running st = false /\ five_axis_running st = false)
  \/ (single_motor_running st = true /\ selects_motor (motor_id st) = false) ->
  scheduler_iteration p t st = st.
Proof.
  intros H. unfold scheduler_iteration.
  destruct (is_delta_positive st); [| reflexivity].
  destruct H as [[Hs Hf] | [Hs Hid]]; rewrite Hs.
  - now rewrite Hf.
  - destruct (motor_id st) as [[] [] [] [] [] [] [] []];
      try reflexivity; discriminate Hid.
Qed.

(** Both servos of axis 2 hold the same angle after an iteration if they
    did before. *)
Lemma scheduler_iteration_mirror p t st :
  M2 st = M2s st ->
  M2 (scheduler_iteration p t st) = M2s (scheduler_iteration p t st).
Proof.
  intros H. unfold scheduler_iteration.
  destruct (is_delta_positive st); [| exact H].
  destruct_robot st. cbn in H. cbn [single_motor_running five_axis_running motor_id].
  destruct sr.
  - destruct id as [[] [] [] [] [] [] [] []]; cbn; try exact H; reflexivity.
  - destruct fr; cbn; [reflexivity | exact H].
Qed.

Lemma scheduler_run_mirror p t0 readings st :
  M2 st = M2s st ->
  M2 (scheduler_run p t0 readings st) = M2s (scheduler_run p t0 readings st).
Proof.
  revert st. induction readings as [| now rest IH]; intros st H; cbn [scheduler_run].
  - exact H.
  - apply IH. now apply scheduler_iteration_mirror.
Qed.

Lemma scheduler_run_frame p t0 readings st :
  let st' := scheduler_run p t0 readings st in
  (forall a, dynamics a st' = dynamics a st)
  /\ cartesian_pos st' = cartesian_pos st
  /\ motor_id st' = motor_id st
  /\ single_motor_mode st' = single_motor_mode st
  /\ cartesian_mode st' = cartesian_mode st
  /\ single_motor_running st' = single_motor_running st
  /\ five_axis_running st' = five_axis_running st
  /\ serial_out st' = serial_out st.
Proof.
  revert st. induction readings as [| now rest IH]; intros st; cbn [scheduler_run].
  - repeat split.
  - destruct (IH (scheduler_iteration p (to_u32 (now - t0)) st))
      as (I1 & I2 & I3 & I4 & I5 & I6 & I7 & I8).
    destruct (scheduler_iteration_frame p (to_u32 (now - t0)) st)
      as (J1 & J2 & J3 & J4 & J5 & J6 & J7 & J8).
    cbv zeta in *.
    repeat split; congruence.
Qed.

(** ** What a line changes *)

(** The profile-planning branches never touch a servo, a mode flag or
    [cartesian_mode]; the single-motor branch leaves [cartesian_pos]. *)
Lemma value_command_frame p input st :
  let st' := value_command p input st in
  (forall s, Servo_read s st' = Servo_read s st)
  /\ servo_writes st' = servo_writes st
  /\ single_motor_mode st' = single_motor_mode st
  /\ cartesian_mode st' = cartesian_mode st
  /\ (cartesian_mode st = false ->
      cartesian_pos st' = cartesian_pos st
      /\ five_axis_running st' = five_axis_running st).
Proof.
  unfold value_command. destruct_robot st.
  cbn [single_motor_mode cartesian_mode].
  destruct sm.
  - unfold single_motor_command. cbn [Serial_print set_motor_id motor_id].
    destruct (Arduino.char_at input 1) as [[] [] [] [] [] [] [] []];
      match goal with
      | |- context [is_delta_positive ?s] => destruct (is_delta_positive s)
      end; cbn; repeat split; try (intros []); reflexivity.
  - destruct cm.
    + unfold cartesian_command, get_angles_from_cartesian.
      cbn [cartesian_pos set_cartesian_pos].
      destruct (within_work_envelope _ _ _ _ _);
        match goal with
        | |- context [is_delta_positive ?s] => destruct (is_delta_positive s)
        end; cbn; repeat split; try (intros []); try reflexivity; discriminate.
    + match goal with
      | |- context [is_delta_positive ?s] => destruct (is_delta_positive s)
      end; cbn; repeat split; try (intros []); reflexivity.
Qed.

Lemma dispatch_all_frame p t st :
  let st' := dispatch_all p t st in
  (forall a, dynamics a st' = dynamics a st)
  /\ cartesian_pos st' = cartesian_pos st
  /\ motor_id st' = motor_id st
  /\ single_motor_mode st' = single_motor_mode st
  /\ cartesian_mode st' = cartesian_mode st
  /\ single_motor_running st' = single_motor_running st
  /\ five_axis_running st' = five_axis_running st
  /\ serial_out st' = serial_out st
  /\ M2 st' = M2s st'.
Proof.
  destruct_robot st. cbn. repeat split; try (intros []); reflexivity.
Qed.

Lemma reset_plan_frame p st :
  let st' := reset_plan p st in
  (forall s, Servo_read s st' = Servo_read s st)
  /\ cartesian_pos st' = cartesian_pos st
  /\ motor_id st' = motor_id st
  /\ single_motor_mode st' = single_motor_mode st
  /\ cartesian_mode st' = cartesian_mode st
  /\ single_motor_running st' = single_motor_running st
  /\ five_axis_running st' = five_axis_running st
  /\ serial_out st' = serial_out st.
Proof.
  destruct_robot st. cbn. repeat split; try (intros []); reflexivity.
Qed.

(** ** The reset loop *)

Lemma reset_robot_unfold p fuel clk st :
  reset_robot p fuel clk st
  = reset_loop p fuel clk 1%nat (to_long (to_u32 (clk O))) (reset_plan p st).
Proof. reflexivity. Qed.

(** The loop, pass by pass: it goes on while the elapsed time exceeds
    [TF] and returns at the first reading that does not, having written
    the six servos once per pass. *)
Lemma reset_loop_passes p clk st (n : nat) :
  forall fuel k,
    (forall j, (k <= j < k + n)%nat -> TF < reset_elapsed clk j) ->
    reset_elapsed clk (k + n) <= TF ->
    (n < fuel)%nat ->
    exists st0,
      reset_loop p fuel clk k (to_long (to_u32 (clk O))) st
      = Some (dispatch_all p (to_u32 (reset_elapsed clk (k + n))) st0)
      /\ (forall a, dynamics a st0 = dynamics a st)
      /\ cartesian_pos st0 = cartesian_pos st
      /\ motor_id st0 = motor_id st
      /\ single_motor_mode st0 = single_motor_mode st
      /\ cartesian_mode st0 = cartesian_mode st
      /\ single_motor_running st0 = single_motor_running st
      /\ five_axis_running st0 = five_axis_running st
      /\ serial_out st0 = serial_out st
      /\ List.length (servo_writes st0) = (List.length (servo_writes st) + 6 * n)%nat.
Proof.
  revert st. induction n as [| n IH]; intros st fuel k Hlate Hlast Hfuel.
  - destruct fuel as [| fuel]; [lia |]. rewrite Nat.add_0_r in Hlast.
    exists st. cbn [reset_loop]. fold (reset_elapsed clk k).
    assert (E : (TF <? reset_elapsed clk k) = false) by (apply Z.ltb_ge; lia).
    rewrite E, Nat.add_0_r. repeat split. lia.
  - destruct fuel as [| fuel]; [lia |].
    cbn [reset_loop]. fold (reset_elapsed clk k).
    assert (E : (TF <? reset_elapsed clk k) = true)
      by (apply Z.ltb_lt; apply Hlate; lia).
    rewrite E.
    destruct (IH (dispatch_all p (to_u32 (reset_elapsed clk k)) st) fuel (S k))
      as (st0 & Hrun & I1 & I2 & I3 & I4 & I5 & I6 & I7 & I8 & I9).
    + intros j Hj. apply Hlate. lia.
    + replace (S k + n)%nat with (k + S n)%nat by lia. exact Hlast.
    + lia.
    + destruct (dispatch_all_frame p (to_u32 (reset_elapsed clk k)) st)
        as (J1 & J2 & J3 & J4 & J5 & J6 & J7 & J8 & _).
      destruct (dispatch_all_servos p (to_u32 (reset_elapsed clk k)) st A1) as [_ Hl].
      cbv zeta in *.
      exists st0. replace (k + S n)%nat with (S k + n)%nat by lia.
      split; [exact Hrun |].
      repeat split; try congruence. lia.
Qed.

(** While the readings exceed [TF] the loop does not return. *)
Lemma reset_loop_late p clk :
  forall fuel k st,
    (forall j, (k <= j < k + fuel)%nat -> TF < reset_elapsed clk j) ->
    reset_loop p fuel clk k (to_long (to_u32 (clk O))) st = None.
Proof.
  induction fuel as [| fuel IH]; intros k st Hlate; cbn [reset_loop].
  - reflexivity.
  - fold (reset_elapsed clk k).
    assert (E : (TF <? reset_elapsed clk k) = true)
      by (apply Z.ltb_lt; apply Hlate; lia).
    rewrite E. apply IH. intros j Hj. apply Hlate. lia.
Qed.

(** X10. [reset_robot] returns at the first reading of [millis()] whose
    elapsed time does not exceed [TF], after one pass per reading; the servo
    of each axis then holds the sample of the reset plan at that elapsed
    time. *)
Theorem reset_robot_passes p fuel clk st (n : nat) :
  (forall j, (1 <= j <= n)%nat -> TF < reset_elapsed clk j) ->
  reset_elapsed clk (S n) <= TF ->
  (n < fuel)%nat ->
  exists st',
    reset_robot p fuel clk st = Some st'
    /\ List.length (servo_writes st')
       = (List.length (servo_writes st) + 6 * (n + 1))%nat
    /\ forall a, Servo_read (servo_of a) st'
                 = compute_angle p (dynamics a (reset_plan p st))
                     (to_u32 (reset_elapsed clk (S n))).
Proof.
  intros Hlate Hlast Hfuel. rewrite reset_robot_unfold.
  destruct (reset_loop_passes p clk (reset_plan p st) n fuel 1%nat)
    as (st0 & Hrun & I1 & _ & _ & _ & _ & _ & _ & _ & I9).
  - intros j Hj. apply Hlate. lia.
  - exact Hlast.
  - exact Hfuel.
  - change (1 + n)%nat with (S n) in Hrun.
    eexists. split; [exact Hrun |].
    destruct (reset_plan_dynamics p st A1) as [_ Hw].
    split.
    + destruct (dispatch_all_servos p (to_u32 (reset_elapsed clk (S n))) st0 A1)
        as [_ Hl].
      rewrite Hl, I9, Hw. lia.
    + intros a.
      destruct (dispatch_all_servos p (to_u32 (reset_elapsed clk (S n))) st0 a)
        as [Hr _].
      now rewrite Hr, I1.
Qed.

(** A clock whose second reading is two seconds after the first and whose
    third reading is taken as the 32-bit counter passes [t0] again. *)
Lemma reset_robot_passes_witness :
  exists st',
    reset_robot saturating 2
      (fun k => match k with 0%nat => 7 | 1%nat => 2007 | _ => 2 ^ 32 + 7 end)
      axis3_displaced = Some st'
    /\ List.length (servo_writes st')
       = (List.length (servo_writes axis3_displaced) + 6 * (1 + 1))%nat
    /\ forall a, Servo_read (servo_of a) st'
                 = compute_angle saturating
                     (dynamics a (reset_plan saturating axis3_displaced))
                     (to_u32 (reset_elapsed
                                (fun k => match k with
                                          | 0%nat => 7 | 1%nat => 2007 | _ => 2 ^ 32 + 7
                                          end) 2)).
Proof.
  apply (reset_robot_passes saturating 2%nat
           (fun k => match k with 0%nat => 7 | 1%nat => 2007 | _ => 2 ^ 32 + 7 end)
           axis3_displaced 1%nat).
  - intros j Hj. assert (j = 1%nat) by lia. subst j. vm_compute. reflexivity.
  - vm_compute. discriminate.
  - lia.
Defined.

(** X11. As long as every reading of [millis()] gives an elapsed time above
    [TF], [reset_robot] has not returned: no number of passes ends the loop. *)
Theorem reset_robot_late p fuel clk st :
  (forall j, (1 <= j <= fuel)%nat -> TF < reset_elapsed clk j) ->
  reset_robot p fuel clk st = None.
Proof.
  intros Hlate. rewrite reset_robot_unfold. apply reset_loop_late.
  intros j Hj. apply Hlate. lia.
Qed.

Lemma reset_robot_late_witness :
  reset_robot saturating 3 (fun k => 2000 * Z.of_nat k) axis3_displaced = None.
Proof.
  apply (reset_robot_late saturating 3%nat (fun k => 2000 * Z.of_nat k) axis3_displaced).
  intros j Hj.
  assert (Hc : j = 1%nat \/ j = 2%nat \/ j = 3%nat) by lia.
  destruct Hc as [-> | [-> | ->]]; vm_compute; reflexivity.
Defined.

(** What [reset_robot] leaves when it returns: apart from the servos,
    only the five profiles have changed, and they are the reset plans. *)
Lemma reset_loop_frame p clk t0 :
  forall fuel k st st',
    reset_loop p fuel clk k t0 st = Some st' ->
    (forall a, dynamics a st' = dynamics a st)
    /\ cartesian_pos st' = cartesian_pos st
    /\ motor_id st' = motor_id st
    /\ single_motor_mode st' = single_motor_mode st
    /\ cartesian_mode st' = cartesian_mode st
    /\ single_motor_running st' = single_motor_running st
    /\ five_axis_running st' = five_axis_running st
    /\ serial_out st' = serial_out st
    /\ M2 st' = M2s st'.
Proof.
  induction fuel as [| fuel IH]; intros k st st' H; cbn [reset_loop] in H.
  - discriminate H.
  - match type of H with
    | (if ?c then _ else _) = _ => destruct c
    end.
    + destruct (IH _ _ _ H) as (I1 & I2 & I3 & I4 & I5 & I6 & I7 & I8 & I9).
      match type of H with
      | reset_loop _ _ _ _ _ (dispatch_all ?p' ?t' ?s') = _ =>
          destruct (dispatch_all_frame p' t' s')
            as (J1 & J2 & J3 & J4 & J5 & J6 & J7 & J8 & _)
      end.
      cbv zeta in *. repeat split; congruence.
    + injection H as <-. apply dispatch_all_frame.
Qed.

Lemma reset_robot_frame p fuel clk st st' :
  reset_robot p fuel clk st = Some st' ->
  (forall a, dynamics a st' = dynamics a (reset_plan p st))
  /\ cartesian_pos st' = cartesian_pos st
  /\ motor_id st' = motor_id st
  /\ single_motor_mode st' = single_motor_mode st
  /\ cartesian_mode st' = cartesian_mode st
  /\ single_motor_running st' = single_motor_running st
  /\ five_axis_running st' = five_axis_running st
  /\ serial_out st' = serial_out st
  /\ M2 st' = M2s st'.
Proof.
  rewrite reset_robot_unfold. intros H.
  destruct (reset_loop_frame _ _ _ _ _ _ _ H)
    as (I1 & I2 & I3 & I4 & I5 & I6 & I7 & I8 & I9).
  destruct (reset_plan_frame p st) as (_ & J2 & J3 & J4 & J5 & J6 & J7 & J8).
  cbv zeta in *. repeat split; congruence.
Qed.

(** X12. Whenever [reset_robot] returns, the five targets are the initial
    angles and the five plans are feasible, whatever the servos read: no
    byte is more than 180 degrees away from 90, 180 or 165. *)
Theorem reset_plans_are_feasible p fuel clk st st' :
  reset_robot p fuel clk st = Some st' ->
  (forall a, angle_tf (dynamics a st') = init_angle a
             /\ angle_t0 (dynamics a st') = to_u8 (Servo_read (servo_of a) st)
             /\ 0 <= delta (dynamics a st'))
  /\ is_delta_positive st' = true.
Proof.
  intros H. destruct (reset_robot_frame p fuel clk st st' H) as (Hd & _).
  assert (Hall : forall a, angle_tf (dynamics a st') = init_angle a
             /\ angle_t0 (dynamics a st') = to_u8 (Servo_read (servo_of a) st)
             /\ 0 <= delta (dynamics a st')).
  { intros a. rewrite Hd. destruct (reset_plan_dynamics p st a) as [E _]. rewrite E.
    pose proof (to_u8_range (Servo_read (servo_of a) st)) as Hr.
    assert (Hi : to_u8 (init_angle a) = init_angle a) by (destruct a; reflexivity).
    assert (Hib : 0 <= init_angle a <= 255) by (destruct a; vm_compute; split; discriminate).
    destruct (compute_dynamics_targets p
                (set_angle_tf (dynamics a st) (to_u8 (init_angle a)))
                (to_u8 (Servo_read (servo_of a) st))) as (E0 & Ef & _ & _).
    rewrite E0, Ef. cbn [angle_tf set_angle_tf]. rewrite Hi.
    split; [reflexivity |]. split; [reflexivity |].
    rewrite (compute_dynamics_delta p
               (set_angle_tf (dynamics a st) (init_angle a))
               (to_u8 (Servo_read (servo_of a) st)) Hr
               ltac:(cbn [angle_tf set_angle_tf]; exact Hib)).
    cbn [angle_tf set_angle_tf].
    destruct a; unfold init_angle, ANGLE_INIT_M1, ANGLE_INIT_M2, ANGLE_INIT_M3,
      ANGLE_INIT_M4, ANGLE_INIT_M5, RANGE_M3, PI_DEG, PI2_DEG; lia. }
  split; [exact Hall |].
  unfold is_delta_positive.
  destruct (Hall A1) as (_ & _ & H1). destruct (Hall A2) as (_ & _ & H2).
  destruct (Hall A3) as (_ & _ & H3). destruct (Hall A4) as (_ & _ & H4).
  destruct (Hall A5) as (_ & _ & H5). cbn [dynamics] in H1, H2, H3, H4, H5.
  apply Z.leb_le in H1, H2, H3, H4, H5. now rewrite H1, H2, H3, H4, H5.
Qed.

Lemma reset_plans_are_feasible_witness :
  exists st',
    reset_robot saturating 1 (fun _ => 5000) axis3_displaced = Some st'
    /\ (forall a, angle_tf (dynamics a st') = init_angle a
                  /\ angle_t0 (dynamics a st')
                     = to_u8 (Servo_read (servo_of a) axis3_displaced)
                  /\ 0 <= delta (dynamics a st'))
    /\ is_delta_positive st' = true.
Proof.
  eexists. split; [vm_compute; reflexivity |].
  eapply (reset_plans_are_feasible saturating 1%nat (fun _ => 5000) axis3_displaced).
  vm_compute. reflexivity.
Defined.

(** ** Invariants of the main loop *)

Lemma set_modes_println_frame s b c st :
  let st' := Serial_println s (set_modes b c st) in
  (forall x, Servo_read x st' = Servo_read x st)
  /\ (forall a, dynamics a st' = dynamics a st)
  /\ cartesian_pos st' = cartesian_pos st
  /\ single_motor_mode st' = b /\ cartesian_mode st' = c
  /\ single_motor_running st' = single_motor_running st
  /\ five_axis_running st' = five_axis_running st
  /\ servo_writes st' = servo_writes st.
Proof.
  destruct_robot st. cbn. repeat split; try (intros []); reflexivity.
Qed.

Lemma println_frame s st :
  let st' := Serial_println s st in
  (forall x, Servo_read x st' = Servo_read x st)
  /\ (forall a, dynamics a st' = dynamics a st)
  /\ cartesian_pos st' = cartesian_pos st
  /\ single_motor_mode st' = single_motor_mode st
  /\ cartesian_mode st' = cartesian_mode st
  /\ single_motor_running st' = single_motor_running st
  /\ five_axis_running st' = five_axis_running st
  /\ servo_writes st' = servo_writes st.
Proof.
  destruct_robot st. cbn. repeat split; try (intros []); reflexivity.
Qed.

Lemma clear_run_flags_all st :
  let st0 := set_five_axis_running false (set_single_motor_running false st) in
  single_motor_running st0 = false /\ five_axis_running st0 = false.
Proof. destruct_robot st. split; reflexivity. Qed.

(** One execution of [loop] from a state outside the cartesian mode ends
    outside it, with [five_axis_running] clear and [cartesian_pos] as it
    was. *)
Lemma loop_keeps_cartesian_off p ps st st' :
  cartesian_mode st = false ->
  loop p ps st = Some st' ->
  cartesian_mode st' = false
  /\ five_axis_running st' = false
  /\ cartesian_pos st' = cartesian_pos st.
Proof.
  intros Hc H. unfold loop in H.
  destruct (scheduler_run_frame p (pass_t0 ps) (pass_readings ps) st)
    as (_ & S2 & _ & _ & S5 & _).
  cbv zeta in S2, S5.
  set (st1 := scheduler_run p (pass_t0 ps) (pass_readings ps) st) in *.
  unfold loop_input in H.
  destruct (clear_run_flags_frame st1) as (_ & F2 & F3 & _).
  destruct (clear_run_flags_all st1) as (_ & F5).
  cbv zeta in F2, F3, F5.
  set (st2 := set_five_axis_running false (set_single_motor_running false st1)) in *.
  destruct (String.eqb (pass_input ps) ("motor" ++ LF)).
  - injection H as <-.
    destruct (set_modes_println_frame
                "Single motor mode accessed. Format: MX.%%%" true false st2)
      as (_ & _ & G3 & _ & G5 & _ & G7 & _).
    cbv zeta in *. repeat split; congruence.
  - destruct (String.eqb (pass_input ps) ("reset" ++ LF)).
    + destruct (reset_robot p (pass_fuel ps) (pass_clock ps) (set_modes false false st2))
        as [r |] eqn:Er; [| discriminate H].
      injection H as <-.
      destruct (reset_robot_frame _ _ _ _ _ Er) as (_ & R2 & _ & _ & R5 & _ & R7 & _).
      destruct (println_frame "The robot has been reset." r)
        as (_ & _ & P3 & _ & P5 & _ & P7 & _).
      assert (M : cartesian_mode (set_modes false false st2) = false
                  /\ five_axis_running (set_modes false false st2) = five_axis_running st2
                  /\ cartesian_pos (set_modes false false st2) = cartesian_pos st2).
      { clearbody st2. destruct_robot st2. repeat split. }
      destruct M as (M1' & M2' & M3'). cbv zeta in *.
      repeat split; congruence.
    + injection H as <-.
      destruct (value_command_frame p (pass_input ps) st2) as (_ & _ & _ & V4 & V5).
      cbv zeta in V4, V5.
      assert (Hc2 : cartesian_mode st2 = false) by congruence.
      destruct (V5 Hc2) as [V6 V7].
      repeat split; congruence.
Qed.

(** X13. No sequence of lines switches the cartesian mode on: starting
    outside it, every execution of [loop] ends outside it,
    [five_axis_running] is never left set and [cartesian_pos] is never
    written. *)
Theorem cartesian_mode_is_never_entered p passes st st' :
  cartesian_mode st = false -> five_axis_running st = false ->
  run_loops p passes st = Some st' ->
  cartesian_mode st' = false
  /\ five_axis_running st' = false
  /\ cartesian_pos st' = cartesian_pos st.
Proof.
  revert st. induction passes as [| ps rest IH]; intros st Hc Hf H; cbn [run_loops] in H.
  - injection H as <-. repeat split; assumption.
  - destruct (loop p ps st) as [st1 |] eqn:E; [| discriminate H].
    destruct (loop_keeps_cartesian_off p ps st st1 Hc E) as (C1 & C2 & C3).
    destruct (IH st1 C1 C2 H) as (D1 & D2 & D3).
    repeat split; congruence.
Qed.

Lemma cartesian_mode_is_never_entered_witness :
  exists st',
    run_loops saturating demo_session after_setup = Some st'
    /\ cartesian_mode st' = false
    /\ five_axis_running st' = false
    /\ cartesian_pos st' = cartesian_pos after_setup.
Proof.
  eexists. split; [vm_compute; reflexivity |].
  eapply (cartesian_mode_is_never_entered saturating demo_session after_setup);
    [reflexivity | reflexivity | vm_compute; reflexivity].
Defined.

(** The two servos of axis 2 hold the same angle after every execution of
    [loop] if they did before it. *)
Lemma loop_keeps_mirror p ps st st' :
  M2 st = M2s st -> loop p ps st = Some st' -> M2 st' = M2s st'.
Proof.
  intros Hm H. unfold loop in H.
  pose proof (scheduler_run_mirror p (pass_t0 ps) (pass_readings ps) st Hm) as Hm1.
  set (st1 := scheduler_run p (pass_t0 ps) (pass_readings ps) st) in *.
  unfold loop_input in H.
  destruct (clear_run_flags_frame st1) as (_ & _ & _ & _ & F4 & _).
  cbv zeta in F4.
  set (st2 := set_five_axis_running false (set_single_motor_running false st1)) in *.
  assert (Hm2 : M2 st2 = M2s st2).
  { pose proof (F4 SM2) as A. pose proof (F4 SM2s) as B. cbn [Servo_read] in A, B.
    congruence. }
  destruct (String.eqb (pass_input ps) ("motor" ++ LF)).
  - injection H as <-.
    destruct (set_modes_println_frame
                "Single motor mode accessed. Format: MX.%%%" true false st2)
      as (G1 & _).
    pose proof (G1 SM2) as A. pose proof (G1 SM2s) as B. cbn [Servo_read] in A, B.
    congruence.
  - destruct (String.eqb (pass_input ps) ("reset" ++ LF)).
    + destruct (reset_robot p (pass_fuel ps) (pass_clock ps) (set_modes false false st2))
        as [r |] eqn:Er; [| discriminate H].
      injection H as <-.
      destruct (reset_robot_frame _ _ _ _ _ Er) as (_ & _ & _ & _ & _ & _ & _ & _ & R9).
      destruct (println_frame "The robot has been reset." r) as (P1 & _).
      pose proof (P1 SM2) as A. pose proof (P1 SM2s) as B. cbn [Servo_read] in A, B.
      congruence.
    + injection H as <-.
      destruct (value_command_frame p (pass_input ps) st2) as (V1 & _).
      pose proof (V1 SM2) as A. pose proof (V1 SM2s) as B. cbn [Servo_read] in A, B.
      congruence.
Qed.

Lemma initialise_robot_servos st :
  forall s, Servo_read s (initialise_robot st)
            = match s with
              | SM1 => ANGLE_INIT_M1 | SM2 | SM2s => ANGLE_INIT_M2
              | SM3 => ANGLE_INIT_M3 | SM4 => ANGLE_INIT_M4 | SM5 => ANGLE_INIT_M5
              end.
Proof. destruct_robot st. intros []; reflexivity. Qed.

(** X14. From [initialise_robot] on, whatever lines arrive and whenever they
    arrive, the two servos of axis 2 hold the same angle at the end of every
    execution of [loop]. *)
Theorem mirrored_servos_agree p passes st st' :
  run_loops p passes (initialise_robot st) = Some st' -> M2 st' = M2s st'.
Proof.
  assert (H0 : M2 (initialise_robot st) = M2s (initialise_robot st)).
  { pose proof (initialise_robot_servos st SM2) as A.
    pose proof (initialise_robot_servos st SM2s) as B.
    cbn [Servo_read] in A, B. congruence. }
  revert H0. generalize (initialise_robot st). clear st.
  induction passes as [| ps rest IH]; intros st Hm H; cbn [run_loops] in H.
  - injection H as <-. exact Hm.
  - destruct (loop p ps st) as [st1 |] eqn:E; [| discriminate H].
    apply (IH st1); [| exact H]. exact (loop_keeps_mirror p ps st st1 Hm E).
Qed.

Lemma mirrored_servos_agree_witness :
  exists st',
    run_loops saturating demo_session (initialise_robot power_on) = Some st'
    /\ M2 st' = M2s st'.
Proof.
  eexists. split; [vm_compute; reflexivity |].
  eapply (mirrored_servos_agree saturating demo_session power_on).
  vm_compute. reflexivity.
Defined.

(** ** The range test of the solver *)

Lemma solved_byte_rounded p st a : solved_byte p st a = to_u8 (rounded_angle p st a).
Proof. destruct a; reflexivity. Qed.

(** X15. Whatever the kinematics return, the solver never commits part of a
    target: either the five targets become the five bytes it tested and
    nothing is printed, or the five profiles are untouched and the report is
    printed. It moves no servo in either case. *)
Theorem solver_is_all_or_nothing p st :
  let st' := get_angles_from_cartesian p st in
  (forall s, Servo_read s st' = Servo_read s st)
  /\ ((forall a, dynamics a st' = set_angle_tf (dynamics a st) (solved_byte p st a))
      /\ serial_out st' = serial_out st
      \/ (forall a, dynamics a st' = dynamics a st)
         /\ serial_out st' = serial_out st ++ [(unreachable_report ++ CRLF)%string]).
Proof.
  destruct (get_angles_from_cartesian_atomic p st) as (Hs & _ & Hat).
  cbv zeta in *. split; [exact Hs |].
  destruct (accepted p st); [left | right]; exact Hat.
Qed.

(** X16. A rounded angle between [Range + 1] and 255, or between
    [Range - 255] and -1, rejects the whole target: the five profiles are untouched
    and the report is printed. *)
Theorem solver_rejects_near_out_of_range p st a :
  range_of a < rounded_angle p st a <= 255
  \/ range_of a - 256 < rounded_angle p st a < 0 ->
  let st' := get_angles_from_cartesian p st in
  (forall b, dynamics b st' = dynamics b st)
  /\ serial_out st' = serial_out st ++ [(unreachable_report ++ CRLF)%string].
Proof.
  intros H.
  assert (Hb : range_of a < solved_byte p st a).
  { rewrite solved_byte_rounded. unfold to_u8.
    assert (Hr : 0 <= range_of a <= 180) by (destruct a; vm_compute; split; discriminate).
    destruct H as [H | H].
    - rewrite Z.mod_small; lia.
    - replace (rounded_angle p st a mod 256) with (rounded_angle p st a + 256);
        [lia |].
      apply Z.mod_unique with (q := -1); lia. }
  destruct (get_angles_from_cartesian_atomic p st) as (_ & _ & Hat).
  cbv zeta in *. rewrite (rejected_when_byte_above_range p st a Hb) in Hat. exact Hat.
Qed.

Lemma solver_rejects_near_out_of_range_witness :
  let st' := get_angles_from_cartesian folded_platform cartesian_state in
  (forall b, dynamics b st' = dynamics b cartesian_state)
  /\ serial_out st'
     = serial_out cartesian_state ++ [(unreachable_report ++ CRLF)%string].
Proof.
  apply (solver_rejects_near_out_of_range folded_platform cartesian_state A3).
  left. vm_compute. split; [reflexivity | discriminate].
Defined.

(** X17. A target whose five rounded angles lie within their ranges is
    committed as it is: the five stored targets are those angles, and
    nothing is printed. *)
Theorem solver_commits_in_range p st :
  (forall a, 0 <= rounded_angle p st a <= range_of a) ->
  let st' := get_angles_from_cartesian p st in
  (forall a, dynamics a st' = set_angle_tf (dynamics a st) (rounded_angle p st a))
  /\ serial_out st' = serial_out st
  /\ forall s, Servo_read s st' = Servo_read s st.
Proof.
  intros Hin.
  assert (Hb : forall a, solved_byte p st a = rounded_angle p st a).
  { intros a. rewrite solved_byte_rounded. apply to_u8_small.
    specialize (Hin a). assert (range_of a <= 180) by (destruct a; vm_compute; discriminate).
    lia. }
  assert (Hacc : accepted p st = true).
  { unfold accepted, within_work_envelope. rewrite !Hb.
    pose proof (Hin A1) as H1. pose proof (Hin A2) as H2. pose proof (Hin A3) as H3.
    pose proof (Hin A4) as H4. pose proof (Hin A5) as H5.
    cbn [range_of] in H1, H2, H3, H4, H5.
    destruct H1 as [L1 U1], H2 as [L2 U2], H3 as [L3 U3], H4 as [L4 U4], H5 as [L5 U5].
    apply Z.leb_le in L1, U1, L2, U2, L3, U3, L4, U4, L5, U5.
    now rewrite L1, U1, L2, U2, L3, U3, L4, U4, L5, U5. }
  destruct (get_angles_from_cartesian_atomic p st) as (Hs & _ & Hat).
  cbv zeta in *. rewrite Hacc in Hat. destruct Hat as [Hd Hout].
  repeat split; try assumption. intros a. now rewrite Hd, Hb.
Qed.

Lemma solver_commits_in_range_witness :
  let st' := get_angles_from_cartesian saturating cartesian_state in
  (forall a, dynamics a st'
             = set_angle_tf (dynamics a cartesian_state)
                 (rounded_angle saturating cartesian_state a))
  /\ serial_out st' = serial_out cartesian_state
  /\ forall s, Servo_read s st' = Servo_read s cartesian_state.
Proof.
  apply (solver_commits_in_range saturating cartesian_state).
  intros a. destruct a; vm_compute; split; discriminate.
Defined.

(** ** Lines the interpreter does not act on *)

(** X18. In single-motor mode a line whose second character is none of
    '1'..'5' (the empty line, a line of one character, [M9.050]) plans
    nothing: the five profiles and the servos are as before, yet
    [single_motor_running] is set; the scheduler then writes nothing. *)
Theorem unselected_motor_plans_nothing p input st :
  single_motor_mode st = true ->
  selects_motor (Arduino.char_at input 1) = false ->
  let st' := value_command p input st in
  (forall a, dynamics a st' = dynamics a st)
  /\ (forall s, Servo_read s st' = Servo_read s st)
  /\ single_motor_running st' = true
  /\ motor_id st' = Arduino.char_at input 1
  /\ forall t, scheduler_iteration p t st' = st'.
Proof.
  intros Hm Hsel.
  assert (H : let st' := value_command p input st in
              (forall a, dynamics a st' = dynamics a st)
              /\ (forall s, Servo_read s st' = Servo_read s st)
              /\ single_motor_running st' = true
              /\ motor_id st' = Arduino.char_at input 1).
  { unfold value_command. destruct_robot st. cbn in Hm. subst sm.
    cbn [single_motor_mode]. unfold single_motor_command.
    cbn [Serial_print set_motor_id motor_id].
    destruct (Arduino.char_at input 1) as [[] [] [] [] [] [] [] []];
      try discriminate Hsel;
      match goal with
      | |- context [is_delta_positive ?s] => destruct (is_delta_positive s)
      end; cbn; repeat split; try (intros []); reflexivity. }
  cbv zeta in *. destruct H as (H1 & H2 & H3 & H4).
  repeat split; try assumption.
  intros t. apply scheduler_idle. right. split; [exact H3 |]. now rewrite H4.
Qed.

Lemma unselected_motor_plans_nothing_witness :
  let st' := value_command saturating ("M9.050" ++ LF) single_motor_state in
  (forall a, dynamics a st' = dynamics a single_motor_state)
  /\ (forall s, Servo_read s st' = Servo_read s single_motor_state)
  /\ single_motor_running st' = true
  /\ motor_id st' = Arduino.char_at ("M9.050" ++ LF) 1
  /\ forall t, scheduler_iteration saturating t st' = st'.
Proof.
  apply (unselected_motor_plans_nothing saturating ("M9.050" ++ LF) single_motor_state);
    reflexivity.
Defined.

(** Outside both modes the value branch of the interpreter, entered with
    the run flags cleared, prints "Unknown command" and touches nothing
    else. *)
Lemma value_command_unknown p input st :
  single_motor_mode st = false -> cartesian_mode st = false ->
  let st' := value_command p input
               (set_five_axis_running false (set_single_motor_running false st)) in
  In ("Error(loop): Unknown command" ++ CRLF)%string (serial_out st')
  /\ (forall a, dynamics a st' = dynamics a st)
  /\ (forall s, Servo_read s st' = Servo_read s st)
  /\ servo_writes st' = servo_writes st
  /\ single_motor_running st' = false
  /\ five_axis_running st' = false
  /\ single_motor_mode st' = false
  /\ cartesian_mode st' = false.
Proof.
  intros Hs Hc.
  unfold value_command. destruct_robot st. cbn in Hs, Hc. subst sm cm.
  cbn [set_single_motor_running set_five_axis_running single_motor_mode cartesian_mode].
  match goal with
  | |- context [is_delta_positive ?s] => destruct (is_delta_positive s)
  end; cbn -[CRLF]; (split; [rewrite ?in_app_iff; cbn [In]; auto |]);
    repeat split; try (intros []); reflexivity.
Qed.

(** X19. Outside both modes a line that is neither [motor] nor [reset] is
    answered with "Unknown command" and changes no profile and no servo;
    both run flags are clear afterwards. *)
Theorem unknown_command_changes_nothing p fuel clk input st :
  single_motor_mode st = false -> cartesian_mode st = false ->
  String.eqb input ("motor" ++ LF) = false ->
  String.eqb input ("reset" ++ LF) = false ->
  exists st',
    loop_input p fuel clk input st = Some st'
    /\ In ("Error(loop): Unknown command" ++ CRLF)%string (serial_out st')
    /\ (forall a, dynamics a st' = dynamics a st)
    /\ (forall s, Servo_read s st' = Servo_read s st)
    /\ servo_writes st' = servo_writes st
    /\ single_motor_running st' = false
    /\ five_axis_running st' = false
    /\ single_motor_mode st' = false
    /\ cartesian_mode st' = false.
Proof.
  intros Hs Hc E1 E2.
  eexists. split; [apply (loop_input_value _ _ _ _ _ E1 E2) |].
  exact (value_command_unknown p input st Hs Hc).
Qed.

Lemma unknown_command_changes_nothing_witness :
  exists st',
    loop_input saturating 1 (fun _ => 0) ("M1.050" ++ LF) after_setup = Some st'
    /\ In ("Error(loop): Unknown command" ++ CRLF)%string (serial_out st')
    /\ (forall a, dynamics a st' = dynamics a after_setup)
    /\ (forall s, Servo_read s st' = Servo_read s after_setup)
    /\ servo_writes st' = servo_writes after_setup
    /\ single_motor_running st' = false
    /\ five_axis_running st' = false
    /\ single_motor_mode st' = false
    /\ cartesian_mode st' = false.
Proof.
  apply (unknown_command_changes_nothing saturating 1%nat (fun _ => 0)
           ("M1.050" ++ LF) after_setup); reflexivity.
Defined.

(** X20. The line [motor] enters the single-motor mode and moves nothing:
    the profiles and the servos are as before, both run flags are clear, and
    the scheduler writes nothing until the next line. *)
Theorem motor_keyword_stops_motion p fuel clk st :
  exists st',
    loop_input p fuel clk ("motor" ++ LF) st = Some st'
    /\ single_motor_mode st' = true /\ cartesian_mode st' = false
    /\ (forall a, dynamics a st' = dynamics a st)
    /\ (forall s, Servo_read s st' = Servo_read s st)
    /\ forall t0 readings, scheduler_run p t0 readings st' = st'.
Proof.
  eexists. split; [reflexivity |].
  destruct (clear_run_flags_frame st) as (_ & _ & _ & F4 & F5 & _).
  destruct (clear_run_flags_all st) as (A1' & A2').
  cbv zeta in *.
  set (st2 := set_five_axis_running false (set_single_motor_running false st)) in *.
  destruct (set_modes_println_frame
              "Single motor mode accessed. Format: MX.%%%" true false st2)
    as (G1 & G2 & _ & G4 & G5 & G6 & G7 & _).
  cbv zeta in *.
  split; [exact G4 |]. split; [exact G5 |].
  split; [intros a; now rewrite G2, F4 |].
  split; [intros s; now rewrite G1, F5 |].
  intros t0 readings. induction readings as [| now rest IH]; cbn [scheduler_run].
  - reflexivity.
  - rewrite scheduler_idle; [exact IH |]. left. split; congruence.
Qed.

(** X21. A reset leaves both modes: whatever the mode before, the line that
    follows a completed reset, if it is no keyword, is answered with
    "Unknown command" and plans nothing. *)
Theorem reset_leaves_the_modes p fuel clk fuel' clk' input st st1 :
  loop_input p fuel clk ("reset" ++ LF) st = Some st1 ->
  String.eqb input ("motor" ++ LF) = false ->
  String.eqb input ("reset" ++ LF) = false ->
  exists st2,
    loop_input p fuel' clk' input st1 = Some st2
    /\ In ("Error(loop): Unknown command" ++ CRLF)%string (serial_out st2)
    /\ (forall a, dynamics a st2 = dynamics a st1)
    /\ (forall s, Servo_read s st2 = Servo_read s st1).
Proof.
  intros Hreset E1 E2.
  assert (Hmodes : single_motor_mode st1 = false /\ cartesian_mode st1 = false).
  { unfold loop_input in Hreset.
    replace (String.eqb ("reset" ++ LF) ("motor" ++ LF)) with false in Hreset
      by reflexivity.
    replace (String.eqb ("reset" ++ LF) ("reset" ++ LF)) with true in Hreset
      by reflexivity.
    match type of Hreset with
    | match reset_robot ?p' ?f' ?c' ?s' with _ => _ end = _ =>
        destruct (reset_robot p' f' c' s') as [r |] eqn:Er; [| discriminate Hreset];
        destruct (reset_robot_frame _ _ _ _ _ Er) as (_ & _ & _ & R4 & R5 & _);
        assert (M : single_motor_mode s' = false /\ cartesian_mode s' = false)
          by (clear; destruct_robot st; split; reflexivity)
    end.
    injection Hreset as <-.
    destruct (println_frame "The robot has been reset." r) as (_ & _ & _ & P4 & P5 & _).
    cbv zeta in *. destruct M. split; congruence. }
  destruct Hmodes as [Hs Hc].
  destruct (value_command_unknown p input st1 Hs Hc) as (Hin & Hd & Hsv & _).
  eexists. split; [apply (loop_input_value _ _ _ _ _ E1 E2) |].
  repeat split; assumption.
Qed.

Lemma reset_leaves_the_modes_witness :
  exists st1,
    loop_input saturating 1 (fun _ => 0) ("reset" ++ LF) single_motor_state = Some st1
    /\ exists st2,
         loop_input saturating 1 (fun _ => 0) ("M1.050" ++ LF) st1 = Some st2
         /\ In ("Error(loop): Unknown command" ++ CRLF)%string (serial_out st2)
         /\ (forall a, dynamics a st2 = dynamics a st1)
         /\ (forall s, Servo_read s st2 = Servo_read s st1).
Proof.
  eexists. split; [vm_compute; reflexivity |].
  eapply (reset_leaves_the_modes saturating 1%nat (fun _ => 0) 1%nat (fun _ => 0)
            ("M1.050" ++ LF) single_motor_state);
    [vm_compute; reflexivity | reflexivity | reflexivity].
Defined.

(** ** Single-motor commands *)

Lemma is_delta_positive_println s st :
  is_delta_positive (Serial_println s st) = is_delta_positive st.
Proof. destruct_robot st. reflexivity. Qed.

(** After a line that is no keyword, "Too low acceleration" is printed
    last when one of the five stored profiles is infeasible. *)
Lemma value_command_reports p input st :
  let st' := value_command p input st in
  is_delta_positive st' = false ->
  exists out, serial_out st'
              = out ++ [("Error(loop): Too low acceleration" ++ CRLF)%string].
Proof.
  unfold value_command.
  match goal with
  | |- context [if is_delta_positive ?s then _ else _] => set (x := s)
  end.
  cbv zeta. destruct (is_delta_positive x) eqn:E.
  - intros H. congruence.
  - intros _. exists (serial_out x). clearbody x. destruct_robot x.
    unfold Serial_println, Serial_print. cbn [serial_out]. reflexivity.
Qed.

(** X22. In single-motor mode a line [M<id>.<ppp>] whose target is more than
    180 degrees away from the angle read back from the servo is planned with
    a negative discriminant; the interpreter prints "Too low acceleration",
    sets [single_motor_running] all the same, and the scheduler then writes
    nothing, however long it runs. *)
Theorem infeasible_command_is_blocked p fuel clk st a n :
  single_motor_mode st = true -> 0 <= n <= 999 ->
  180 < Z.abs (to_u8 (mapped_angle a n) - to_u8 (Servo_read (servo_of a) st)) ->
  exists st',
    loop_input p fuel clk (motor_command a n) st = Some st'
    /\ delta (dynamics a st') < 0
    /\ (exists out, serial_out st'
                    = out ++ [("Error(loop): Too low acceleration" ++ CRLF)%string])
    /\ single_motor_running st' = true
    /\ forall t0 readings, scheduler_run p t0 readings st' = st'.
Proof.
  intros Hm Hn Hfar.
  destruct (loop_input_motor_command p fuel clk st a n Hm Hn)
    as (st' & Hrun & Hd & Hr & _).
  exists st'. split; [exact Hrun |].
  assert (Hneg : delta (dynamics a st') < 0).
  { rewrite Hd.
    rewrite (compute_dynamics_delta p
               (set_angle_tf (dynamics a st) (to_u8 (mapped_angle a n)))
               (to_u8 (Servo_read (servo_of a) st))
               (to_u8_range _)
               ltac:(cbn [angle_tf set_angle_tf]; apply to_u8_range)).
    cbn [angle_tf set_angle_tf]. lia. }
  split; [exact Hneg |]. split.
  - destruct (motor_command_parse a n Hn) as (_ & _ & E1 & E2).
    rewrite (loop_input_value _ _ _ _ _ E1 E2) in Hrun. injection Hrun as <-.
    apply value_command_reports.
    apply (is_delta_positive_false _ a). exact Hneg.
  - split; [exact Hr |]. intros t0 readings.
    apply (scheduler_run_blocked p t0 readings st' a Hneg).
Qed.

Lemma infeasible_command_is_blocked_witness :
  exists st',
    loop_input saturating 1 (fun _ => 0) (motor_command A1 130)
      (Servo_write SM1 0 single_motor_state) = Some st'
    /\ delta (dynamics A1 st') < 0
    /\ (exists out, serial_out st'
                    = out ++ [("Error(loop): Too low acceleration" ++ CRLF)%string])
    /\ single_motor_running st' = true
    /\ forall t0 readings, scheduler_run saturating t0 readings st' = st'.
Proof.
  apply (infeasible_command_is_blocked saturating 1%nat (fun _ => 0)
           (Servo_write SM1 0 single_motor_state) A1 130);
    [reflexivity | lia | vm_compute; reflexivity].
Defined.

(** X23. A feasible single-motor command, with the four other profiles
    feasible, opens the scheduler for that axis alone: each iteration writes
    the sample of the new plan to the servos of that axis. *)
Theorem feasible_command_is_dispatched p fuel clk st a n t :
  single_motor_mode st = true -> 0 <= n <= 999 ->
  Z.abs (to_u8 (mapped_angle a n) - to_u8 (Servo_read (servo_of a) st)) <= 180 ->
  (forall b, b <> a -> 0 <= delta (dynamics b st)) ->
  exists st',
    loop_input p fuel clk (motor_command a n) st = Some st'
    /\ forall s,
         Servo_read s (scheduler_iteration p t st')
         = if drives a s
           then compute_angle p
                  (compute_dynamics p
                     (set_angle_tf (dynamics a st) (to_u8 (mapped_angle a n)))
                     (to_u8 (Servo_read (servo_of a) st))) t
           else Servo_read s st.
Proof.
  intros Hm Hn Hnear Hothers.
  destruct (loop_input_motor_command p fuel clk st a n Hm Hn)
    as (st' & Hrun & Hd & Hr & Hid & Hs & _).
  exists st'. split; [exact Hrun |].
  assert (Hpos : 0 <= delta (dynamics a st')).
  { rewrite Hd.
    rewrite (compute_dynamics_delta p
               (set_angle_tf (dynamics a st) (to_u8 (mapped_angle a n)))
               (to_u8 (Servo_read (servo_of a) st))
               (to_u8_range _)
               ltac:(cbn [angle_tf set_angle_tf]; apply to_u8_range)).
    cbn [angle_tf set_angle_tf]. lia. }
  assert (Hframe : forall b, b <> a -> dynamics b st' = dynamics b st).
  { destruct (motor_command_parse a n Hn) as (Hc & _ & E1 & E2).
    rewrite (loop_input_value _ _ _ _ _ E1 E2) in Hrun. injection Hrun as <-.
    clear - Hm Hc. intros b Hb.
    unfold value_command. destruct_robot st. cbn in Hm. subst sm.
    cbn [set_single_motor_running set_five_axis_running single_motor_mode].
    unfold single_motor_command. cbn [Serial_print set_motor_id motor_id].
    rewrite Hc.
    destruct a;
      match goal with
      | |- context [is_delta_positive ?s] => destruct (is_delta_positive s)
      end; destruct b; try contradiction; reflexivity. }
  assert (Hg : is_delta_positive st' = true).
  { unfold is_delta_positive.
    assert (Hall : forall b, 0 <= delta (dynamics b st')).
    { intros b. destruct (axis_eq_dec b a) as [-> | Hne]; [exact Hpos |].
      rewrite (Hframe b Hne). now apply Hothers. }
    pose proof (Hall A1) as H1. pose proof (Hall A2) as H2. pose proof (Hall A3) as H3.
    pose proof (Hall A4) as H4. pose proof (Hall A5) as H5.
    cbn [dynamics] in H1, H2, H3, H4, H5.
    apply Z.leb_le in H1, H2, H3, H4, H5. now rewrite H1, H2, H3, H4, H5. }
  intros s. rewrite (single_axis_dispatch p t st' a Hg Hr Hid s), Hd, Hs.
  reflexivity.
Qed.

Lemma feasible_command_is_dispatched_witness :
  exists st',
    loop_input saturating 1 (fun _ => 0) (motor_command A1 100) single_motor_state
    = Some st'
    /\ forall s,
         Servo_read s (scheduler_iteration saturating 700 st')
         = if drives A1 s
           then compute_angle saturating
                  (compute_dynamics saturating
                     (set_angle_tf (dynamics A1 single_motor_state)
                        (to_u8 (mapped_angle A1 100)))
                     (to_u8 (Servo_read (servo_of A1) single_motor_state))) 700
           else Servo_read s single_motor_state.
Proof.
  apply (feasible_command_is_dispatched saturating 1%nat (fun _ => 0)
           single_motor_state A1 100 700);
    [reflexivity | lia | vm_compute; discriminate |].
  intros b _. destruct b; vm_compute; discriminate.
Defined.
